(** * Date pickers of solara.lab: state synchronisation and formatting

    A shallow embedding of the four components of
    [solara/lab/components/datepicker.py] ([DatePicker], [DateRangePicker])
    and [solara/lab/components/input_date.py] ([InputDate],
    [InputDateRange]), together with the fragment of Python's [datetime]
    formatting and parsing that they call. *)

From Stdlib Require Import String Ascii List Arith Bool Lia.
Import ListNotations.
Local Open Scope string_scope.
Local Open Scope nat_scope.
Local Open Scope list_scope.
Set Warnings "-abstract-large-number".

(* ================================================================= *)
(** ** Python's [datetime]: dates, [strftime] and [strptime]          *)
(* ================================================================= *)

(** The components call [date.strftime(fmt)] and
    [datetime.strptime(s, fmt).date()].  Both belong to the Python standard
    library.  The model below follows CPython's [Lib/_strptime.py] (format
    to regular expression, backtracking match, "unconverted data remains"
    check, construction of the date) and the C library's [strftime] for the
    directives a date can be rendered with: [%Y], [%m], [%d] and [%%],
    between literal characters.  Strings are ASCII. *)
Module dt.

(** [datetime.date]: year, month, day. *)
Record date := mkdate { year : nat; month : nat; day : nat }.

Definition is_leap (y : nat) : bool :=
  ((y mod 4 =? 0) && negb (y mod 100 =? 0)) || (y mod 400 =? 0).

Definition days_in_month (y m : nat) : nat :=
  match m with
  | 1 | 3 | 5 | 7 | 8 | 10 | 12 => 31
  | 4 | 6 | 9 | 11 => 30
  | 2 => if is_leap y then 29 else 28
  | _ => 0
  end.

(** The checks of the [date(year, month, day)] constructor: MINYEAR = 1,
    MAXYEAR = 9999. *)
Definition valid_date (d : date) : bool :=
  (1 <=? year d) && (year d <=? 9999) &&
  (1 <=? month d) && (month d <=? 12) &&
  (1 <=? day d) && (day d <=? days_in_month (year d) (month d)).

(** The exceptions [strptime] can raise on string arguments: [ValueError]
    (bad directive, no match, unconverted data, date out of range) and
    [re.error] (the same directive twice: a regular expression group is
    redefined). *)
Inductive exn := ValueError | ReError.

Definition result (A : Type) : Type := (exn + A)%type.

(** *** Characters and numbers *)

Definition in_range (lo hi c : ascii) : bool :=
  (nat_of_ascii lo <=? nat_of_ascii c) && (nat_of_ascii c <=? nat_of_ascii hi).

Definition is_char (x c : ascii) : bool := Ascii.eqb x c.

Definition is_digit (c : ascii) : bool := in_range "0" "9" c.

(** [\s] on an ASCII [str]: the characters for which [str.isspace()] holds,
    tab to carriage return (9-13), the separators 28-31 and the space. *)
Definition is_space (c : ascii) : bool :=
  let n := nat_of_ascii c in
  ((9 <=? n) && (n <=? 13)) || ((28 <=? n) && (n <=? 31)) || (n =? 32).

(** Lower-casing, for the [IGNORECASE] flag of the compiled format. *)
Definition lower (c : ascii) : ascii :=
  if in_range "A" "Z" c then ascii_of_nat (nat_of_ascii c + 32) else c.

Definition eqb_nocase (x c : ascii) : bool := Ascii.eqb (lower x) (lower c).

Definition digit (n : nat) : ascii := ascii_of_nat (48 + n mod 10).

(** [%m] and [%d]: two digits, zero padded. *)
Definition two_digits (n : nat) : string :=
  String (digit (n / 10)) (String (digit n) "").

Fixpoint decimal_aux (fuel n : nat) (acc : string) : string :=
  match fuel with
  | O => acc
  | S fuel' =>
      let acc' := String (digit n) acc in
      if n <? 10 then acc' else decimal_aux fuel' (n / 10) acc'
  end.

(** [%Y] as the C library prints it: the year in decimal, without padding
    (so a year below 1000 has fewer than four digits). *)
Definition decimal (n : nat) : string := decimal_aux (S n) n "".

(** [int(s)] on a group of the match: digits, after the blank that the
    [%d] expression admits in front of a single digit. *)
Fixpoint int_acc (s : string) (acc : nat) : nat :=
  match s with
  | "" => acc
  | String c r =>
      if is_digit c then int_acc r (10 * acc + (nat_of_ascii c - 48))
      else int_acc r acc
  end.

Definition int (s : string) : nat := int_acc s 0.

(** *** The format string *)

(** A format is scanned from the left for [%] and the character after it,
    by the C library's [strftime] and by [TimeRE.pattern] alike. *)
Inductive item :=
| Lit (c : ascii)       (* a character that stands for itself *)
| Dir (c : ascii)       (* [%c] *)
| Stray.                (* a [%] that ends the format *)

Fixpoint lex (fmt : string) : list item :=
  match fmt with
  | "" => []
  | String c rest =>
      if is_char "%" c then
        match rest with
        | "" => [Stray]
        | String k rest' => Dir k :: lex rest'
        end
      else Lit c :: lex rest
  end.

(** The directives of the model. *)
Inductive directive := DirY | Dirm | Dird.

Definition directive_eqb (a b : directive) : bool :=
  match a, b with
  | DirY, DirY | Dirm, Dirm | Dird, Dird => true
  | _, _ => false
  end.

Definition is_dir (k : directive) (i : item) : bool :=
  match i, k with
  | Dir c, DirY => is_char "Y" c
  | Dir c, Dirm => is_char "m" c
  | Dir c, Dird => is_char "d" c
  | _, _ => false
  end.

(** The formats the model covers: literal characters, [%Y], [%m], [%d]
    and [%%]. *)
Definition item_supported (i : item) : bool :=
  match i with
  | Lit _ => true
  | Dir c => is_char "Y" c || is_char "m" c || is_char "d" c || is_char "%" c
  | Stray => false
  end.

Definition supported (fmt : string) : bool := forallb item_supported (lex fmt).

(** *** [strftime] *)

Definition render (d : date) (i : item) : string :=
  match i with
  | Lit c => String c ""
  | Dir c =>
      if is_char "Y" c then decimal (year d)
      else if is_char "m" c then two_digits (month d)
      else if is_char "d" c then two_digits (day d)
      else if is_char "%" c then "%"
      else String "%" (String c "")
  | Stray => "%"
  end.

Fixpoint render_all (d : date) (its : list item) : string :=
  match its with
  | [] => ""
  | i :: its' => render d i ++ render_all d its'
  end.

Definition strftime (d : date) (fmt : string) : string :=
  render_all d (lex fmt).

(** *** [strptime] *)

(** The pieces of the regular expression a format compiles to. *)
Inductive token :=
| TChar (c : ascii)     (* an escaped literal, matched ignoring case *)
| TSpace                (* [\s+], for a run of whitespace in the format *)
| TGroup (k : directive).

(** A character class, and an alternative as a sequence of classes. *)
Definition cclass : Type := ascii -> bool.

(** [%Y]: [(?P<Y>\d\d\d\d)];
    [%m]: [(?P<m>1[0-2]|0[1-9]|[1-9])];
    [%d]: [(?P<d>3[0-1]|[1-2]\d|0[1-9]|[1-9]| [1-9])]. *)
Definition group_regex (k : directive) : list (list cclass) :=
  match k with
  | DirY => [[is_digit; is_digit; is_digit; is_digit]]
  | Dirm => [[is_char "1"; in_range "0" "2"];
             [is_char "0"; in_range "1" "9"];
             [in_range "1" "9"]]
  | Dird => [[is_char "3"; in_range "0" "1"];
             [in_range "1" "2"; is_digit];
             [is_char "0"; in_range "1" "9"];
             [in_range "1" "9"];
             [is_char " "; in_range "1" "9"]]
  end.

Definition lookup_directive (c : ascii) : result token :=
  if is_char "Y" c then inr (TGroup DirY)
  else if is_char "m" c then inr (TGroup Dirm)
  else if is_char "d" c then inr (TGroup Dird)
  else if is_char "%" c then inr (TChar "%")
  else inl ValueError.   (* "... is a bad directive in format ..." *)

(** [TimeRE.pattern]: whitespace runs become [\s+], directives are looked
    up; [prev_ws] tells that the run in progress already has its [\s+]. *)
Fixpoint tokens (prev_ws : bool) (its : list item) : result (list token) :=
  match its with
  | [] => inr []
  | Stray :: _ => inl ValueError        (* "stray % in format" *)
  | Dir c :: its' =>
      match lookup_directive c with
      | inl e => inl e
      | inr t =>
          match tokens false its' with
          | inl e => inl e
          | inr ts => inr (t :: ts)
          end
      end
  | Lit c :: its' =>
      if is_space c then
        if prev_ws then tokens true its'
        else match tokens true its' with
             | inl e => inl e
             | inr ts => inr (TSpace :: ts)
             end
      else match tokens false its' with
           | inl e => inl e
           | inr ts => inr (TChar c :: ts)
           end
  end.

Definition count_group (k : directive) (ts : list token) : nat :=
  length (filter (fun t => match t with
                           | TGroup k' => directive_eqb k k'
                           | _ => false
                           end) ts).

(** [TimeRE.compile]: [re.compile] refuses a group name used twice. *)
Definition compile (fmt : string) : result (list token) :=
  match tokens false (lex fmt) with
  | inl e => inl e
  | inr ts =>
      if (count_group DirY ts <=? 1) && (count_group Dirm ts <=? 1)
         && (count_group Dird ts <=? 1)
      then inr ts else inl ReError
  end.

(** The named groups of a match. *)
Record groups := mkgroups { gY : option nat; gm : option nat; gd : option nat }.

Definition no_groups : groups := mkgroups None None None.

Definition set_group (k : directive) (v : nat) (g : groups) : groups :=
  match k with
  | DirY => mkgroups (Some v) (gm g) (gd g)
  | Dirm => mkgroups (gY g) (Some v) (gd g)
  | Dird => mkgroups (gY g) (gm g) (Some v)
  end.

(** One alternative against the head of the input: the text matched and
    the rest. *)
Fixpoint match_seq (cs : list cclass) (s : string) : option (string * string) :=
  match cs with
  | [] => Some ("", s)
  | p :: cs' =>
      match s with
      | "" => None
      | String c r =>
          if p c then
            match match_seq cs' r with
            | Some (m, rest) => Some (String c m, rest)
            | None => None
            end
          else None
      end
  end.

(** The alternatives that match, in the order the engine tries them. *)
Definition match_alts (alts : list (list cclass)) (s : string)
  : list (string * string) :=
  flat_map (fun a => match match_seq a s with
                     | Some x => [x]
                     | None => []
                     end) alts.

(** [\s+] is greedy: the rests after one or more blanks, longest run
    first. *)
Fixpoint space_rests (s : string) : list string :=
  match s with
  | "" => []
  | String c r => if is_space c then space_rests r ++ [r] else []
  end.

(** The ways one token can match at the head of [s], in the order of the
    backtracking engine. *)
Definition candidates (t : token) (s : string) (g : groups)
  : list (groups * string) :=
  match t with
  | TChar x =>
      match s with
      | String c r => if eqb_nocase x c then [(g, r)] else []
      | "" => []
      end
  | TSpace => map (fun r => (g, r)) (space_rests s)
  | TGroup k =>
      map (fun mr => (set_group k (int (fst mr)) g, snd mr))
          (match_alts (group_regex k) s)
  end.

Fixpoint first_match {A B : Type} (f : A -> option B) (l : list A) : option B :=
  match l with
  | [] => None
  | x :: l' => match f x with
               | Some y => Some y
               | None => first_match f l'
               end
  end.

(** [format_regex.match(data_string)]: the first way, in backtracking
    order, to match every token from the start of the input; the match need
    not reach the end of the input. *)
Fixpoint rematch (ts : list token) (s : string) (g : groups)
  : option (groups * string) :=
  match ts with
  | [] => Some (g, s)
  | t :: ts' =>
      first_match (fun c => rematch ts' (snd c) (fst c)) (candidates t s g)
  end.

Definition or_default (o : option nat) (dflt : nat) : nat :=
  match o with Some v => v | None => dflt end.

(** The date of a match: a missing year is 1900, a missing month or day is
    1; the [date] constructor then checks the ranges. *)
Definition build (g : groups) : result date :=
  let d := mkdate (or_default (gY g) 1900) (or_default (gm g) 1)
                  (or_default (gd g) 1) in
  if valid_date d then inr d else inl ValueError.

(** [datetime.strptime(data_string, format).date()]. *)
Definition strptime (data_string format : string) : result date :=
  match compile format with
  | inl e => inl e
  | inr ts =>
      match rematch ts data_string no_groups with
      | None => inl ValueError     (* "time data ... does not match format" *)
      | Some (g, rest) =>
          match rest with
          | "" => build g
          | _ => inl ValueError    (* "unconverted data remains" *)
          end
      end
  end.

End dt.

Arguments dt.is_char : simpl never.
Arguments dt.is_digit : simpl never.
Arguments dt.is_space : simpl never.
Arguments dt.in_range : simpl never.
Arguments dt.eqb_nocase : simpl never.

(** The two library calls as the components see them.  The components are
    verified for every implementation of this interface; [python_datetime]
    is the model above. *)
Class datetime_lib := {
  strftime : dt.date -> string -> string;
  strptime : string -> string -> dt.result dt.date }.

#[export] Instance python_datetime : datetime_lib :=
  {| strftime := dt.strftime; strptime := dt.strptime |}.

(* ================================================================= *)
(** ** Event handlers: state and exceptions                           *)
(* ================================================================= *)

(** A handler runs on the store of reactive cells and either returns or
    raises; a raised exception leaves the store as it is at that point
    (nothing is rolled back). *)
Definition M (S A : Type) : Type := S -> dt.result A * S.

Definition ret {S A : Type} (a : A) : M S A := fun s => (inr a, s).

Definition bind {S A B : Type} (m : M S A) (k : A -> M S B) : M S B :=
  fun s => match m s with
           | (inl e, s') => (inl e, s')
           | (inr a, s') => k a s'
           end.

(** A library call that may raise. *)
Definition call {S A : Type} (r : dt.result A) : M S A := fun s => (r, s).

Definition get {S : Type} : M S S := fun s => (inr s, s).

Definition modify {S : Type} (f : S -> S) : M S unit := fun s => (inr tt, f s).

Notation "x <- m ;; k" := (bind m (fun x => k))
  (at level 61, m at next level, right associativity).
Notation "m ;;; k" := (bind m (fun _ => k))
  (at level 61, right associativity).

(** [[f(x) for x in xs]]: the first exception ends the comprehension. *)
Fixpoint comprehension {A B : Type} (f : A -> dt.result B) (xs : list A)
  : dt.result (list B) :=
  match xs with
  | [] => inr []
  | x :: xs' =>
      match f x with
      | inl e => inl e
      | inr y =>
          match comprehension f xs' with
          | inl e => inl e
          | inr ys => inr (y :: ys)
          end
      end
  end.

(** [sep.join(strings)]. *)
Fixpoint join (sep : string) (l : list string) : string :=
  match l with
  | [] => ""
  | [x] => x
  | x :: l' => x ++ sep ++ join sep l'
  end.

(** Iterating over a [str] yields its characters as strings of length 1. *)
Fixpoint iter_str (s : string) : list string :=
  match s with
  | "" => []
  | String c r => String c "" :: iter_str r
  end.

(* ================================================================= *)
(** ** The elements the components render                             *)
(* ================================================================= *)

(** An element handed in by the caller ([children]); opaque here. *)
Inductive Element := element (repr : string).

(** [solara.v.TextField]; [readonly] is false when the call leaves it
    out. *)
Record TextField (H : Type) := mkTextField {
  tf_label : string;
  tf_value : option string;
  tf_on_v_model : H;
  tf_append_icon : string;
  tf_readonly : bool;
  tf_style_ : option string }.
Arguments mkTextField {H}.
Arguments tf_label {H}.
Arguments tf_value {H}.
Arguments tf_on_v_model {H}.
Arguments tf_append_icon {H}.
Arguments tf_readonly {H}.
Arguments tf_style_ {H}.

(** [solara.lab.Menu]. *)
Record Menu := mkMenu {
  menu_close_on_content_click : bool;
  menu_open : bool }.

(** [solara.v.DatePicker], the calendar widget. *)
Record VDatePicker (V H : Type) := mkVDatePicker {
  dp_v_model : V;
  dp_on_v_model : H;
  dp_range : bool;
  dp_first_day_of_week : option nat;
  dp_style_ : option string }.
Arguments mkVDatePicker {V H}.
Arguments dp_v_model {V H}.
Arguments dp_on_v_model {V H}.
Arguments dp_range {V H}.
Arguments dp_first_day_of_week {V H}.
Arguments dp_style_ {V H}.

(** What is shown under the calendar: the caller's children, or a row with
    one "close" button. *)
Inductive Footer (C : Type) :=
| Children (els : list Element)
| CloseRow (justify : string) (style : option string)
           (label color : string) (on_click : C).
Arguments Children {C}.
Arguments CloseRow {C}.

Record View (TH V WH C : Type) := mkView {
  input : TextField TH;
  menu : Menu;
  picker : VDatePicker V WH;
  footer : Footer C }.
Arguments mkView {TH V WH C}.
Arguments input {TH V WH C}.
Arguments menu {TH V WH C}.
Arguments picker {TH V WH C}.
Arguments footer {TH V WH C}.

(** Modelled from the spec: [solara.use_reactive] is not among the sources.
    The spec (4.2 and 9) describes it for a plain value: the component gets
    a cell of its own, seeded from the value at first mount, and later
    renders with a different value do not reset it ("adopt once", no
    re-seeding).  [cell] is the cell of the previous render, if any. *)
Definition use_reactive {A : Type} (cell : option A) (value : A) : A :=
  match cell with
  | None => value
  | Some v => v
  end.

(* ================================================================= *)
(** ** datepicker.py                                                  *)
(* ================================================================= *)

Module DatePicker.
Section WithDatetime.
Context `{datetime_lib}.

Record props := mkprops {
  children : list Element;
  open : bool;
  date_format : string }.

Definition default_props : props := mkprops [] false "%Y-%m-%d".

(** The reactive cells the component works on: [date] belongs to the
    caller, [datepicker_is_open] is the cell [use_reactive(open)] gave. *)
Record store := mkstore {
  date : option dt.date;
  datepicker_is_open : bool }.

Definition set_date_cast (p : props) (value : string) : M store unit :=
  date_value <- call (strptime value (date_format p)) ;;
  modify (fun s => mkstore (Some date_value) (datepicker_is_open s)).

(** [lambda: datepicker_is_open.set(False)]. *)
Definition close : M store unit :=
  modify (fun s => mkstore (date s) false).

Definition view : Type :=
  View (string -> M store unit) (option string) (string -> M store unit)
       (M store unit).

(** One run of the component body: the value of its cell and what it
    renders. *)
Definition DatePicker (p : props) (date : option dt.date) (cell : option bool)
  : bool * view :=
  let date_str := match date with
                  | Some d => Some (strftime d (date_format p))
                  | None => None
                  end in
  let datepicker_is_open := use_reactive cell (open p) in
  (datepicker_is_open,
   mkView
     (mkTextField "Test" date_str (set_date_cast p) "mdi-calendar" true None)
     (mkMenu false datepicker_is_open)
     (mkVDatePicker date_str (set_date_cast p) false None None)
     (if 0 <? length (children p) then Children (children p)
      else CloseRow "end" (Some "width: 100%") "close" "primary" close)).

Definition mount (p : props) (date : option dt.date) : store :=
  mkstore date (fst (DatePicker p date None)).

Definition render (p : props) (st : store) : view :=
  snd (DatePicker p (date st) (Some (datepicker_is_open st))).

(** A write to the caller's cell from elsewhere. *)
Definition external_set (v : option dt.date) (st : store) : store :=
  mkstore v (datepicker_is_open st).

(** What the text field shows. *)
Definition shown (p : props) (st : store) : option string :=
  tf_value (input (render p st)).

End WithDatetime.
End DatePicker.

Module DateRangePicker.
Section WithDatetime.
Context `{datetime_lib}.

Record props := mkprops {
  children : list Element;
  open : bool;
  date_format : string }.

Definition default_props : props := mkprops [] false "%Y-%m-%d".

Record store := mkstore {
  dates : list dt.date;
  datepicker_is_open : bool }.

Definition set_dates_cast (p : props) (values : list string) : M store unit :=
  date_value <-
    call (comprehension (fun value => strptime value (date_format p)) values) ;;
  modify (fun s => mkstore date_value (datepicker_is_open s)).

Definition close : M store unit :=
  modify (fun s => mkstore (dates s) false).

Definition view : Type :=
  View (string -> M store unit) (list string) (list string -> M store unit)
       (M store unit).

Definition DateRangePicker (p : props) (dates : list dt.date)
  (cell : option bool) : bool * view :=
  let date_strings := map (fun date => strftime date (date_format p)) dates in
  let datepicker_is_open := use_reactive cell (open p) in
  (datepicker_is_open,
   mkView
     (mkTextField "Test" (Some (join " - " date_strings))
        (fun values => set_dates_cast p (iter_str values))
        "mdi-calendar" true (Some "min-width: 280px;"))
     (mkMenu false datepicker_is_open)
     (mkVDatePicker date_strings (set_dates_cast p) true None None)
     (if 0 <? length (children p) then Children (children p)
      else CloseRow "end" None "close" "primary" close)).

Definition mount (p : props) (dates : list dt.date) : store :=
  mkstore dates (fst (DateRangePicker p dates None)).

Definition render (p : props) (st : store) : view :=
  snd (DateRangePicker p (dates st) (Some (datepicker_is_open st))).

Definition external_set (v : list dt.date) (st : store) : store :=
  mkstore v (datepicker_is_open st).

(** What the text field shows. *)
Definition shown (p : props) (st : store) : option string :=
  tf_value (input (render p st)).

End WithDatetime.
End DateRangePicker.

(* ================================================================= *)
(** ** input_date.py                                                  *)
(* ================================================================= *)

Module InputDate.
Section WithDatetime.
Context `{datetime_lib}.

(** [style] stands for [solara.util._flatten_style(style)], the style as
    one string. *)
Record props := mkprops {
  label : string;
  children : list Element;
  open : bool;
  date_format : string;
  first_day_of_the_week : nat;
  style : string }.

Definition default_props : props :=
  mkprops "Pick a date" [] false "%Y/%m/%d" 1 "".

(** [value] belongs to the caller; [date_str] and [datepicker_is_open] are
    the cells of the two [use_reactive] calls. *)
Record store := mkstore {
  value : option dt.date;
  date_str : option string;
  datepicker_is_open : bool }.

(** [str_and_format] reads [value.value] when it is called. *)
Definition str_and_format (p : props) (value : option dt.date) : option string :=
  match value with
  | Some d => Some (strftime d (date_format p))
  | None => None
  end.

Definition set_date_cast (p : props) (new_value : string) : M store unit :=
  date_value <- call (strptime new_value "%Y-%m-%d") ;;
  modify (fun s => mkstore (Some date_value) (date_str s)
                           (datepicker_is_open s)) ;;;
  s <- get ;;
  modify (fun s' => mkstore (value s') (str_and_format p (value s))
                            (datepicker_is_open s')).

Definition close : M store unit :=
  modify (fun s => mkstore (value s) (date_str s) false).

Definition view : Type :=
  View (string -> M store unit) (option dt.date) (string -> M store unit)
       (M store unit).

Definition InputDate (p : props) (value : option dt.date)
  (date_str_cell : option (option string)) (open_cell : option bool)
  : (option string * bool) * view :=
  let date_str := use_reactive date_str_cell (str_and_format p value) in
  let datepicker_is_open := use_reactive open_cell (open p) in
  let style_flat := style p in
  ((date_str, datepicker_is_open),
   mkView
     (mkTextField (label p) date_str (set_date_cast p) "mdi-calendar" false
        (Some style_flat))
     (mkMenu false datepicker_is_open)
     (mkVDatePicker value (set_date_cast p) false
        (Some (first_day_of_the_week p)) (Some "width: 100%;"))
     (if 0 <? length (children p) then Children (children p)
      else CloseRow "end" (Some "width: 100%") "close" "primary" close)).

Definition mount (p : props) (value : option dt.date) : store :=
  let cells := fst (InputDate p value None None) in
  mkstore value (fst cells) (snd cells).

Definition render (p : props) (st : store) : view :=
  snd (InputDate p (value st) (Some (date_str st))
         (Some (datepicker_is_open st))).

(** A write to the caller's cell from elsewhere: the component's own cells
    are not touched. *)
Definition external_set (v : option dt.date) (st : store) : store :=
  mkstore v (date_str st) (datepicker_is_open st).

(** What the text field shows. *)
Definition shown (p : props) (st : store) : option string :=
  tf_value (input (render p st)).

End WithDatetime.
End InputDate.

Module InputDateRange.
Section WithDatetime.
Context `{datetime_lib}.

Record props := mkprops {
  label : string;
  children : list Element;
  open : bool;
  date_format : string;
  first_day_of_the_week : nat;
  style : string }.

Definition default_props : props :=
  mkprops "Select dates" [] false "%Y/%m/%d" 1 "".

Record store := mkstore {
  value : list dt.date;
  datepicker_is_open : bool }.

Definition set_dates_cast (p : props) (values : list string) : M store unit :=
  date_value <-
    call (comprehension (fun item => strptime item "%Y-%m-%d") values) ;;
  modify (fun s => mkstore date_value (datepicker_is_open s)).

Definition close : M store unit :=
  modify (fun s => mkstore (value s) false).

Definition view : Type :=
  View (string -> M store unit) (list dt.date) (list string -> M store unit)
       (M store unit).

Definition InputDateRange (p : props) (value : list dt.date)
  (cell : option bool) : bool * view :=
  let date_strings := map (fun date => strftime date (date_format p)) value in
  let datepicker_is_open := use_reactive cell (open p) in
  let style_flat := style p in
  (datepicker_is_open,
   mkView
     (mkTextField (label p) (Some (join " - " date_strings))
        (fun values => set_dates_cast p (iter_str values))
        "mdi-calendar" true (Some ("min-width: 300px;" ++ style_flat)%string))
     (mkMenu false datepicker_is_open)
     (mkVDatePicker value (set_dates_cast p) true
        (Some (first_day_of_the_week p)) (Some "width: 100%;"))
     (if 0 <? length (children p) then Children (children p)
      else CloseRow "end" None "close" "primary" close)).

Definition mount (p : props) (value : list dt.date) : store :=
  mkstore value (fst (InputDateRange p value None)).

Definition render (p : props) (st : store) : view :=
  snd (InputDateRange p (value st) (Some (datepicker_is_open st))).

Definition external_set (v : list dt.date) (st : store) : store :=
  mkstore v (datepicker_is_open st).

(** What the text field shows. *)
Definition shown (p : props) (st : store) : option string :=
  tf_value (input (render p st)).

End WithDatetime.
End InputDateRange.

(* ================================================================= *)
(** ** Notions used in the statements                                 *)
(* ================================================================= *)

(** [s.startswith(p)]. *)
Fixpoint startswith (s p : string) {struct p} : bool :=
  match p with
  | "" => true
  | String a p' =>
      match s with
      | "" => false
      | String b s' => Ascii.eqb a b && startswith s' p'
      end
  end.

(** [s.split(sep)] for a separator that is not empty: the occurrences of
    [sep] are found from the left and do not overlap.  [skip] counts the
    characters of an occurrence still to pass, [cur] is the piece read so
    far. *)
Fixpoint split_aux (sep : string) (skip : nat) (cur s : string) : list string :=
  match s with
  | "" => [cur]
  | String c r =>
      match skip with
      | S k => split_aux sep k cur r
      | O =>
          if startswith s sep
          then cur :: split_aux sep (String.length sep - 1) "" r
          else split_aux sep 0 (cur ++ String c "") r
      end
  end.

Definition split (sep s : string) : list string := split_aux sep 0 "" s.


Fixpoint all_space (s : string) : bool :=
  match s with
  | "" => true
  | String c r => dt.is_space c && all_space r
  end.

Definition starts_nonspace (s : string) : bool :=
  match s with
  | "" => true
  | String c _ => negb (dt.is_space c)
  end.

Definition count_dir (k : dt.directive) (fmt : string) : nat :=
  length (filter (dt.is_dir k) (dt.lex fmt)).

(** A format of literal characters, [%%] and exactly one each of [%Y], [%m]
    and [%d]: nothing of the date is lost and no directive is repeated. *)
Definition full_date_format (fmt : string) : bool :=
  dt.supported fmt && (count_dir dt.DirY fmt =? 1)
  && (count_dir dt.Dirm fmt =? 1) && (count_dir dt.Dird fmt =? 1).

(** Sample values, for running the definitions. *)
Definition jan15 : dt.date := dt.mkdate 2024 1 15.
Definition feb20 : dt.date := dt.mkdate 2024 2 20.
Definition mar01 : dt.date := dt.mkdate 2024 3 1.
Definition mar10 : dt.date := dt.mkdate 2024 3 10.

Definition picker_store : DatePicker.store :=
  DatePicker.mkstore (Some jan15) true.
Definition input_store : InputDate.store :=
  InputDate.mkstore (Some jan15) (Some "2024/01/15") true.
Definition range_store : DateRangePicker.store :=
  DateRangePicker.mkstore [mar01; mar10] true.
Definition input_range_store : InputDateRange.store :=
  InputDateRange.mkstore [mar01; mar10] true.



(** The groups that matching the rendering of [d] sets. *)
Definition set_item (d : dt.date) (g : dt.groups) (i : dt.item) : dt.groups :=
  if dt.is_dir dt.DirY i then dt.set_group dt.DirY (dt.year d) g
  else if dt.is_dir dt.Dirm i then dt.set_group dt.Dirm (dt.month d) g
  else if dt.is_dir dt.Dird i then dt.set_group dt.Dird (dt.day d) g
  else g.

Definition nonspace_item (i : dt.item) : bool :=
  match i with
  | dt.Lit c => negb (dt.is_space c)
  | _ => true
  end.


(** What the year check below establishes for one year: [%Y] prints four
    digits that read back as the year. *)
Definition year_ok (y : nat) : bool :=
  match dt.decimal y with
  | String a (String b (String c (String e ""))) =>
      dt.is_digit a && dt.is_digit b && dt.is_digit c && dt.is_digit e
      && (dt.int (dt.decimal y) =? y)
  | _ => false
  end.

(* ================================================================= *)
(** ** The model on the scenarios of the specification                *)
(* ================================================================= *)

Example strftime_iso : dt.strftime jan15 "%Y-%m-%d" = "2024-01-15".
Proof. reflexivity. Qed.

Example strptime_iso : dt.strptime "2024-02-20" "%Y-%m-%d" = inr feb20.
Proof. reflexivity. Qed.

Example strptime_no_match : dt.strptime "not-a-date" "%Y-%m-%d" = inl dt.ValueError.
Proof. reflexivity. Qed.

Example strptime_invalid_day : dt.strptime "2024-02-30" "%Y-%m-%d" = inl dt.ValueError.
Proof. reflexivity. Qed.

Example strptime_leap_day : dt.strptime "2024-02-29" "%Y-%m-%d" = inr (dt.mkdate 2024 2 29).
Proof. reflexivity. Qed.

Example strptime_unconverted : dt.strptime "2024-02-20x" "%Y-%m-%d" = inl dt.ValueError.
Proof. reflexivity. Qed.

Example strptime_short_fields : dt.strptime "2024-2-3" "%Y-%m-%d" = inr (dt.mkdate 2024 2 3).
Proof. reflexivity. Qed.

Example strptime_backtracks : dt.strptime "11" "%d%m" = inr (dt.mkdate 1900 1 1).
Proof. reflexivity. Qed.

Example strptime_blanks_and_case :
  dt.strptime "15  jan 2024" "%d JAN %Y" = inr (dt.mkdate 2024 1 15).
Proof. reflexivity. Qed.

Example strptime_bad_directive : dt.strptime "2024" "%Y%" = inl dt.ValueError.
Proof. reflexivity. Qed.

Example strptime_repeated_directive : dt.strptime "2024 2024" "%Y %Y" = inl dt.ReError.
Proof. reflexivity. Qed.

(** Scenarios 1 and 2: the value is 2024-01-15 and the pattern is
    [%Y-%m-%d]; the user types a date, then something that is no date. *)
Example scenario_1 :
  let p := InputDate.mkprops "Pick a date" [] false "%Y-%m-%d" 1 "" in
  let st := InputDate.mount (H := python_datetime) p (Some jan15) in
  InputDate.shown p st = Some "2024-01-15"
  /\ InputDate.set_date_cast p "2024-02-20" st
     = (inr tt, InputDate.mkstore (Some feb20) (Some "2024-02-20") false).
Proof. split; reflexivity. Qed.

Example scenario_2 :
  let p := InputDate.mkprops "Pick a date" [] false "%Y-%m-%d" 1 "" in
  let st := InputDate.mount (H := python_datetime) p (Some jan15) in
  InputDate.set_date_cast p "not-a-date" st = (inl dt.ValueError, st)
  /\ InputDate.shown p st = Some "2024-01-15".
Proof. split; reflexivity. Qed.

(** Scenario 3: an empty range, then the widget reports two dates. *)
Example scenario_3 :
  let p := DateRangePicker.default_props in
  let st := DateRangePicker.mount (H := python_datetime) p [] in
  let st' := snd (DateRangePicker.set_dates_cast p
                    ["2024-03-01"; "2024-03-10"] st) in
  DateRangePicker.dates st' = [mar01; mar10]
  /\ DateRangePicker.shown p st' = Some "2024-03-01 - 2024-03-10".
Proof. split; reflexivity. Qed.

(** Scenario 4: [open] is a plain [False]; the "close" button sets the
    component's own flag, whatever it was. *)
Example scenario_4 :
  let p := DatePicker.default_props in
  let st := DatePicker.mount (H := python_datetime) p (Some jan15) in
  DatePicker.datepicker_is_open st = false
  /\ snd (DatePicker.close (DatePicker.mkstore (Some jan15) true))
     = DatePicker.mkstore (Some jan15) false.
Proof. split; reflexivity. Qed.

(* ================================================================= *)
(** ** Lemmas on the [datetime] model                                 *)
(* ================================================================= *)

Lemma first_match_hd {A B : Type} (f : A -> option B) (l : list A) x y :
  hd_error l = Some x -> f x = Some y -> dt.first_match f l = Some y.
Proof.
  destruct l as [|a l]; simpl; [discriminate|].
  intros [= ->] ->. reflexivity.
Qed.

Lemma hd_error_map {A B : Type} (f : A -> B) (l : list A) x :
  hd_error l = Some x -> hd_error (map f l) = Some (f x).
Proof. destruct l; simpl; [discriminate|]. now intros [= ->]. Qed.

Lemma hd_error_app {A : Type} (l l' : list A) x :
  hd_error l = Some x -> hd_error (l ++ l') = Some x.
Proof. destruct l; simpl; [discriminate|]. now intros [= ->]. Qed.

Lemma space_rests_nonspace s :
  starts_nonspace s = true -> dt.space_rests s = [].
Proof.
  destruct s as [|c r]; simpl; [reflexivity|].
  intros E. apply negb_true_iff in E. now rewrite E.
Qed.

Lemma space_rests_run w rest :
  w <> "" -> all_space w = true -> starts_nonspace rest = true ->
  hd_error (dt.space_rests (w ++ rest)) = Some rest.
Proof.
  induction w as [|c w IH]; [congruence|].
  intros _ Hw Hr. simpl in Hw. apply andb_prop in Hw as [Hc Hw].
  simpl. rewrite Hc.
  destruct w as [|c' w'].
  - simpl. now rewrite (space_rests_nonspace _ Hr).
  - apply hd_error_app. apply IH; [discriminate | assumption | assumption].
Qed.

Lemma rematch_space ts w rest g x :
  w <> "" -> all_space w = true -> starts_nonspace rest = true ->
  dt.rematch ts rest g = Some x ->
  dt.rematch (dt.TSpace :: ts) (w ++ rest) g = Some x.
Proof.
  intros Hne Hw Hr Hx. simpl.
  apply first_match_hd with (x := (g, rest)); [|exact Hx].
  apply (hd_error_map (fun r => (g, r))). now apply space_rests_run.
Qed.

Lemma years_checked : forallb year_ok (seq 1000 9000) = true.
Proof. vm_compute. reflexivity. Qed.

Lemma year_checked y : 1000 <= y -> y < 10000 -> year_ok y = true.
Proof.
  intros Hlo Hhi.
  pose proof years_checked as H. rewrite forallb_forall in H.
  apply H. apply in_seq. split; [exact Hlo|].
  change (1000 + 9000) with 10000. exact Hhi.
Qed.

Lemma digit_not_space n : dt.is_space (dt.digit n) = false.
Proof.
  unfold dt.digit. pose proof (Nat.mod_upper_bound n 10) as Hb.
  remember (n mod 10) as r eqn:E. clear E.
  do 10 (destruct r as [|r]; [reflexivity|]). lia.
Qed.


Lemma is_digit_bounds c :
  dt.is_digit c = true -> 48 <= nat_of_ascii c <= 57.
Proof.
  unfold dt.is_digit, dt.in_range.
  change (nat_of_ascii "0") with 48. change (nat_of_ascii "9") with 57.
  intros E. apply andb_prop in E as [E1 E2].
  apply Nat.leb_le in E1. apply Nat.leb_le in E2. lia.
Qed.

Lemma is_digit_not_space c : dt.is_digit c = true -> dt.is_space c = false.
Proof.
  intros E. apply is_digit_bounds in E. unfold dt.is_space. cbv zeta.
  repeat match goal with
         | |- context [?a <=? ?b] => destruct (Nat.leb_spec a b)
         | |- context [?a =? ?b] => destruct (Nat.eqb_spec a b)
         end; simpl; try reflexivity; lia.
Qed.


(** The month printed with two digits is the first way [%m] matches. *)
Lemma month_group m rest :
  1 <= m <= 12 ->
  hd_error (dt.match_alts (dt.group_regex dt.Dirm) (dt.two_digits m ++ rest))
    = Some (dt.two_digits m, rest)
  /\ dt.int (dt.two_digits m) = m.
Proof.
  intros Hm.
  do 13 (destruct m as [|m]; [try lia; split; reflexivity|]). lia.
Qed.

(** The day printed with two digits is the first way [%d] matches. *)
Lemma day_group n rest :
  1 <= n <= 31 ->
  hd_error (dt.match_alts (dt.group_regex dt.Dird) (dt.two_digits n ++ rest))
    = Some (dt.two_digits n, rest)
  /\ dt.int (dt.two_digits n) = n.
Proof.
  intros Hn.
  do 32 (destruct n as [|n]; [try lia; split; reflexivity|]). lia.
Qed.

(** A year of four digits is the way [%Y] matches. *)
Lemma year_group y rest :
  1000 <= y -> y < 10000 ->
  hd_error (dt.match_alts (dt.group_regex dt.DirY) (dt.decimal y ++ rest))
    = Some (dt.decimal y, rest)
  /\ dt.int (dt.decimal y) = y.
Proof.
  intros Hlo Hhi. pose proof (year_checked y Hlo Hhi) as H.
  unfold year_ok in H.
  destruct (dt.decimal y) as [|a [|b [|c [|e [|? ?]]]]]; try discriminate H.
  do 4 (apply andb_prop in H as [H ?]).
  split; [|now apply Nat.eqb_eq].
  unfold dt.match_alts, dt.group_regex. simpl.
  repeat match goal with E : dt.is_digit _ = true |- _ => rewrite E; clear E end.
  reflexivity.
Qed.

Lemma days_in_month_le y m : dt.days_in_month y m <= 31.
Proof.
  unfold dt.days_in_month.
  do 13 (destruct m as [|m]; [try destruct (dt.is_leap y); lia|]). lia.
Qed.

Lemma valid_date_bounds d :
  dt.valid_date d = true ->
  1 <= dt.year d /\ dt.year d < 10000 /\ 1 <= dt.month d <= 12
  /\ 1 <= dt.day d <= 31.
Proof.
  unfold dt.valid_date. intros H.
  do 5 (apply andb_prop in H as [H ?]).
  repeat match goal with E : (_ <=? _) = true |- _ => apply Nat.leb_le in E end.
  pose proof (days_in_month_le (dt.year d) (dt.month d)).
  repeat split; try lia.
  apply Nat.lt_succ_r. assumption.
Qed.

Section RoundTrip.

Variable d : dt.date.
Hypothesis Hvalid : dt.valid_date d = true.
Hypothesis Hyear : 1000 <= dt.year d.

Lemma decimal_year_digits :
  exists a b c e,
    dt.decimal (dt.year d) = String a (String b (String c (String e "")))
    /\ dt.is_digit a = true /\ dt.is_digit b = true
    /\ dt.is_digit c = true /\ dt.is_digit e = true.
Proof.
  destruct (valid_date_bounds d Hvalid) as (_ & Hhi & _).
  pose proof (year_checked _ Hyear Hhi) as H. unfold year_ok in H.
  destruct (dt.decimal (dt.year d)) as [|a [|b [|c [|e [|? ?]]]]];
    try discriminate H.
  do 4 (apply andb_prop in H as [H ?]).
  exists a, b, c, e. auto.
Qed.

Lemma render_starts_nonspace i rest :
  dt.item_supported i = true -> nonspace_item i = true ->
  starts_nonspace (dt.render d i ++ rest) = true.
Proof.
  destruct i as [c|c|]; simpl; intros Hs Hn; [exact Hn| |discriminate].
  destruct (dt.is_char "Y" c).
  { destruct decimal_year_digits as (a & b & c' & e & -> & Ha & _).
    cbn [append starts_nonspace]. now rewrite (is_digit_not_space _ Ha). }
  destruct (dt.is_char "m" c).
  { cbn [append starts_nonspace dt.two_digits]. now rewrite digit_not_space. }
  destruct (dt.is_char "d" c).
  { cbn [append starts_nonspace dt.two_digits]. now rewrite digit_not_space. }
  destruct (dt.is_char "%" c); [reflexivity|discriminate].
Qed.

(** One item of the format that is not a blank: its token matches its
    rendering first, and sets the group to the field of [d]. *)
Lemma rematch_item i its ts g :
  dt.item_supported i = true -> nonspace_item i = true ->
  dt.tokens false (i :: its) = inr ts ->
  exists t ts',
    ts = t :: ts' /\ dt.tokens false its = inr ts'
    /\ forall rest x,
        dt.rematch ts' rest (set_item d g i) = Some x ->
        dt.rematch (t :: ts') (dt.render d i ++ rest) g = Some x.
Proof.
  destruct (valid_date_bounds d Hvalid) as (_ & Hhi & Hm & Hd).
  destruct i as [c|c|]; simpl; intros Hs Hn Ht; [| |discriminate].
  - apply negb_true_iff in Hn. rewrite Hn in Ht.
    destruct (dt.tokens false its) as [e|ts'] eqn:E; [discriminate|].
    injection Ht as <-. exists (dt.TChar c), ts'. repeat split.
    intros rest x Hx. simpl.
    unfold dt.eqb_nocase. rewrite Ascii.eqb_refl. simpl.
    unfold set_item in Hx. simpl in Hx. now rewrite Hx.
  - unfold dt.lookup_directive in Ht. unfold set_item. simpl.
    destruct (dt.is_char "Y" c) eqn:EY.
    { destruct (dt.tokens false its) as [e|ts'] eqn:E; [discriminate|].
      injection Ht as <-. exists (dt.TGroup dt.DirY), ts'. repeat split.
      intros rest x Hx.
      destruct (year_group (dt.year d) rest Hyear Hhi) as [Hhd Hint].
      cbn [dt.rematch dt.candidates]. eapply first_match_hd.
      - apply hd_error_map. exact Hhd.
      - cbn [fst snd]. rewrite Hint. exact Hx. }
    destruct (dt.is_char "m" c) eqn:Em.
    { destruct (dt.tokens false its) as [e|ts'] eqn:E; [discriminate|].
      injection Ht as <-. exists (dt.TGroup dt.Dirm), ts'. repeat split.
      intros rest x Hx.
      destruct (month_group (dt.month d) rest Hm) as [Hhd Hint].
      cbn [dt.rematch dt.candidates]. eapply first_match_hd.
      - apply hd_error_map. exact Hhd.
      - cbn [fst snd]. rewrite Hint. exact Hx. }
    destruct (dt.is_char "d" c) eqn:Ed.
    { destruct (dt.tokens false its) as [e|ts'] eqn:E; [discriminate|].
      injection Ht as <-. exists (dt.TGroup dt.Dird), ts'. repeat split.
      intros rest x Hx.
      destruct (day_group (dt.day d) rest Hd) as [Hhd Hint].
      cbn [dt.rematch dt.candidates]. eapply first_match_hd.
      - apply hd_error_map. exact Hhd.
      - cbn [fst snd]. rewrite Hint. exact Hx. }
    destruct (dt.is_char "%" c) eqn:Ep; [|discriminate].
    destruct (dt.tokens false its) as [e|ts'] eqn:E; [discriminate|].
    injection Ht as <-. exists (dt.TChar "%"), ts'. repeat split.
    intros rest x Hx. simpl.
    change (dt.eqb_nocase "%" "%") with true. simpl. now rewrite Hx.
Qed.

Lemma tokens_flag i its :
  nonspace_item i = true ->
  dt.tokens true (i :: its) = dt.tokens false (i :: its).
Proof.
  destruct i as [c|c|]; simpl; intros Hn; try reflexivity.
  apply negb_true_iff in Hn. now rewrite Hn.
Qed.

Lemma all_space_app w c :
  all_space w = true -> dt.is_space c = true ->
  all_space (w ++ String c "") = true.
Proof.
  induction w as [|a w IH]; simpl; intros Hw Hc.
  - now rewrite Hc.
  - apply andb_prop in Hw as [Ha Hw]. rewrite Ha. simpl. now apply IH.
Qed.

Lemma append_assoc (a b c : string) : ((a ++ b) ++ c = a ++ (b ++ c))%string.
Proof. induction a as [|x a IH]; simpl; [reflexivity|now rewrite IH]. Qed.

(** Matching the rendering of [d] against the tokens of the same format
    succeeds along the first choices, consumes the whole string and sets
    each group to the field of [d]; the second part is the same inside a
    run of blanks whose [\s+] is already there. *)
Lemma rematch_render its :
  forallb dt.item_supported its = true ->
  (forall ts g,
      dt.tokens false its = inr ts ->
      dt.rematch ts (dt.render_all d its) g
      = Some (fold_left (set_item d) its g, ""))
  /\ (forall ts g w,
      w <> "" -> all_space w = true ->
      dt.tokens true its = inr ts ->
      dt.rematch (dt.TSpace :: ts) (w ++ dt.render_all d its) g
      = Some (fold_left (set_item d) its g, "")).
Proof.
  induction its as [|i its IH]; intros Hs.
  - split.
    + intros ts g [= <-]. reflexivity.
    + intros ts g w Hne Hw [= <-].
      apply rematch_space; auto.
  - simpl in Hs. apply andb_prop in Hs as [Hi Hs].
    destruct (IH Hs) as [IH1 IH2]. clear IH.
    destruct (nonspace_item i) eqn:Hn.
    + assert (first :
          forall ts g, dt.tokens false (i :: its) = inr ts ->
            dt.rematch ts (dt.render_all d (i :: its)) g
            = Some (fold_left (set_item d) (i :: its) g, "")).
      { intros ts g Ht.
        destruct (rematch_item i its ts g Hi Hn Ht) as (t & ts' & -> & Ht' & Hstep).
        simpl dt.render_all. apply Hstep. simpl. now apply IH1. }
      split; [exact first|].
      intros ts g w Hne Hw Ht. rewrite (tokens_flag _ _ Hn) in Ht.
      apply rematch_space; auto.
      simpl. now apply render_starts_nonspace.
    + destruct i as [c|c|]; try discriminate Hn.
      simpl in Hn. apply negb_false_iff in Hn.
      split.
      * intros ts g Ht. simpl in Ht. rewrite Hn in Ht.
        destruct (dt.tokens true its) as [e|ts'] eqn:E; [discriminate|].
        injection Ht as <-.
        change (dt.render_all d (dt.Lit c :: its))
          with (String c "" ++ dt.render_all d its)%string.
        change (fold_left (set_item d) (dt.Lit c :: its) g)
          with (fold_left (set_item d) its g).
        apply IH2; [discriminate | simpl; now rewrite Hn | reflexivity].
      * intros ts g w Hne Hw Ht. simpl in Ht. rewrite Hn in Ht.
        change (dt.render_all d (dt.Lit c :: its))
          with (String c "" ++ dt.render_all d its)%string.
        change (fold_left (set_item d) (dt.Lit c :: its) g)
          with (fold_left (set_item d) its g).
        rewrite <- append_assoc.
        apply IH2; [ | now apply all_space_app | exact Ht].
        destruct w; discriminate.
Qed.

End RoundTrip.

Lemma is_char_eq x c : dt.is_char x c = true -> c = x.
Proof. unfold dt.is_char. intros E. apply Ascii.eqb_eq in E. congruence. Qed.

(** Tests on characters that are known are evaluated. *)
Ltac eval_chars :=
  repeat match goal with
         | |- context [dt.is_char ?a ?b] =>
             let v := eval vm_compute in (dt.is_char a b) in
             change (dt.is_char a b) with v
         end.

(** A supported format compiles to tokens with one group per directive. *)
Lemma tokens_supported its :
  forallb dt.item_supported its = true ->
  forall b, exists ts,
    dt.tokens b its = inr ts
    /\ forall k, dt.count_group k ts = length (filter (dt.is_dir k) its).
Proof.
  induction its as [|i its IH]; intros Hs b.
  - exists []. split; [reflexivity|]. intros k. reflexivity.
  - simpl in Hs. apply andb_prop in Hs as [Hi Hs].
    destruct i as [c|c|]; [| |discriminate Hi].
    + simpl. destruct (dt.is_space c).
      * destruct (IH Hs true) as (ts & -> & Hc).
        destruct b; [exists ts | exists (dt.TSpace :: ts)]; split; auto.
      * destruct (IH Hs false) as (ts & -> & Hc).
        exists (dt.TChar c :: ts). split; auto.
    + destruct (IH Hs false) as (ts & Ht & Hc).
      simpl. rewrite Ht. unfold dt.lookup_directive. simpl in Hi.
      destruct (dt.is_char "Y" c) eqn:EY.
      { apply is_char_eq in EY. subst c. exists (dt.TGroup dt.DirY :: ts).
        split; [reflexivity|]. intros k. specialize (Hc k).
        destruct k; unfold dt.count_group in *; simpl in Hc |- *; eval_chars;
          simpl; congruence. }
      destruct (dt.is_char "m" c) eqn:Em.
      { apply is_char_eq in Em. subst c. exists (dt.TGroup dt.Dirm :: ts).
        split; [reflexivity|]. intros k. specialize (Hc k).
        destruct k; unfold dt.count_group in *; simpl in Hc |- *; eval_chars;
          simpl; congruence. }
      destruct (dt.is_char "d" c) eqn:Ed.
      { apply is_char_eq in Ed. subst c. exists (dt.TGroup dt.Dird :: ts).
        split; [reflexivity|]. intros k. specialize (Hc k).
        destruct k; unfold dt.count_group in *; simpl in Hc |- *; eval_chars;
          simpl; congruence. }
      destruct (dt.is_char "%" c) eqn:Ep; [|discriminate Hi].
      exists (dt.TChar "%" :: ts). split; [reflexivity|].
      intros k. specialize (Hc k).
      destruct k; unfold dt.count_group in *; simpl in Hc |- *;
        rewrite ?EY, ?Em, ?Ed; exact Hc.
Qed.

Lemma filter_nonempty_existsb {A : Type} (f : A -> bool) (l : list A) :
  length (filter f l) = 1 -> existsb f l = true.
Proof.
  induction l as [|a l IH]; simpl; [discriminate|].
  destruct (f a); [reflexivity|]. exact IH.
Qed.

(** The groups set by the items of a format, one directive at a time. *)
Lemma fold_set_item d its :
  forall g,
    dt.gY (fold_left (set_item d) its g)
    = (if existsb (dt.is_dir dt.DirY) its then Some (dt.year d) else dt.gY g)
    /\ dt.gm (fold_left (set_item d) its g)
    = (if existsb (dt.is_dir dt.Dirm) its then Some (dt.month d) else dt.gm g)
    /\ dt.gd (fold_left (set_item d) its g)
    = (if existsb (dt.is_dir dt.Dird) its then Some (dt.day d) else dt.gd g).
Proof.
  induction its as [|i its IH]; intros g; [simpl; auto|].
  cbn [fold_left existsb]. destruct (IH (set_item d g i)) as (HY & Hm & Hd).
  rewrite HY, Hm, Hd. clear IH HY Hm Hd. unfold set_item.
  destruct i as [c|c|]; cbn [dt.is_dir orb]; auto.
  destruct (dt.is_char "Y" c) eqn:EY.
  { apply is_char_eq in EY. subst c. eval_chars. simpl.
    repeat split; destruct (existsb _ its); reflexivity. }
  destruct (dt.is_char "m" c) eqn:Em.
  { apply is_char_eq in Em. subst c. eval_chars. simpl.
    repeat split; destruct (existsb _ its); reflexivity. }
  destruct (dt.is_char "d" c) eqn:Ed.
  { apply is_char_eq in Ed. subst c. eval_chars. simpl.
    repeat split; destruct (existsb _ its); reflexivity. }
  simpl. auto.
Qed.

(** Round trip on the model: a valid date of a four-digit year, printed
    with a format that has each of [%Y], [%m], [%d] once, parses back to
    itself. *)
Lemma strptime_strftime d fmt :
  dt.valid_date d = true -> 1000 <= dt.year d ->
  full_date_format fmt = true ->
  dt.strptime (dt.strftime d fmt) fmt = inr d.
Proof.
  intros Hv Hy Hf. unfold full_date_format in Hf.
  do 3 (apply andb_prop in Hf as [Hf ?]).
  repeat match goal with E : (_ =? _) = true |- _ => apply Nat.eqb_eq in E end.
  unfold count_dir in *. unfold dt.supported in Hf.
  destruct (tokens_supported _ Hf false) as (ts & Ht & Hc).
  unfold dt.strptime, dt.compile, dt.strftime. rewrite Ht.
  rewrite !Hc.
  repeat match goal with E : length _ = 1 |- _ => rewrite E end.
  cbn [Nat.leb andb].
  destruct (rematch_render d Hv Hy _ Hf) as [Hr _].
  rewrite (Hr ts dt.no_groups Ht).
  destruct (fold_set_item d (dt.lex fmt) dt.no_groups) as (HY & Hm & Hd).
  unfold dt.build. rewrite HY, Hm, Hd.
  rewrite !filter_nonempty_existsb by assumption.
  cbn [dt.or_default]. destruct d as [y m n]. cbn [dt.year dt.month dt.day].
  now rewrite Hv.
Qed.

(** *** [str.split] and blanks *)







(* ================================================================= *)
(** ** The handlers, run                                              *)
(* ================================================================= *)

Section Handlers.
Context `{datetime_lib}.

Lemma comprehension_Forall2 {A B : Type} (f : A -> dt.result B) xs ys :
  Forall2 (fun x y => f x = inr y) xs ys <-> comprehension f xs = inr ys.
Proof.
  split.
  - induction 1 as [|x y xs ys Hx _ IH]; simpl; [reflexivity|].
    now rewrite Hx, IH.
  - revert ys. induction xs as [|x xs IH]; simpl; intros ys E.
    + injection E as <-. constructor.
    + destruct (f x) as [e|y] eqn:Hx; [discriminate|].
      destruct (comprehension f xs) as [e|ys'] eqn:Hxs; [discriminate|].
      injection E as <-. constructor; auto.
Qed.

(** The exception of a comprehension is the exception of one of its
    items. *)
Lemma comprehension_inl {A B : Type} (f : A -> dt.result B) xs e :
  comprehension f xs = inl e -> exists x, In x xs /\ f x = inl e.
Proof.
  induction xs as [|x xs IH]; simpl; [discriminate|].
  destruct (f x) as [e'|y] eqn:Hx.
  - intros [= <-]. exists x. auto.
  - destruct (comprehension f xs) as [e'|ys]; [|discriminate].
    intros [= <-]. destruct (IH eq_refl) as (x' & Hin & Hx').
    exists x'. auto.
Qed.


Lemma DatePicker_run p value st :
  DatePicker.set_date_cast p value st
  = match strptime value (DatePicker.date_format p) with
    | inl e => (inl e, st)
    | inr date_value =>
        (inr tt, DatePicker.mkstore (Some date_value)
                   (DatePicker.datepicker_is_open st))
    end.
Proof.
  unfold DatePicker.set_date_cast, bind, call, modify.
  now destruct (strptime value _).
Qed.

Lemma InputDate_run p new_value st :
  InputDate.set_date_cast p new_value st
  = match strptime new_value "%Y-%m-%d" with
    | inl e => (inl e, st)
    | inr date_value =>
        (inr tt, InputDate.mkstore (Some date_value)
                   (Some (strftime date_value (InputDate.date_format p)))
                   (InputDate.datepicker_is_open st))
    end.
Proof.
  unfold InputDate.set_date_cast, bind, call, modify, get.
  now destruct (strptime new_value _).
Qed.

Lemma DateRangePicker_run p values st :
  DateRangePicker.set_dates_cast p values st
  = match comprehension
            (fun value => strptime value (DateRangePicker.date_format p))
            values with
    | inl e => (inl e, st)
    | inr date_value =>
        (inr tt, DateRangePicker.mkstore date_value
                   (DateRangePicker.datepicker_is_open st))
    end.
Proof.
  unfold DateRangePicker.set_dates_cast, bind, call, modify.
  now destruct (comprehension _ values).
Qed.

Lemma InputDateRange_run p values st :
  InputDateRange.set_dates_cast p values st
  = match comprehension (fun item => strptime item "%Y-%m-%d") values with
    | inl e => (inl e, st)
    | inr date_value =>
        (inr tt, InputDateRange.mkstore date_value
                   (InputDateRange.datepicker_is_open st))
    end.
Proof.
  unfold InputDateRange.set_dates_cast, bind, call, modify.
  now destruct (comprehension _ values).
Qed.


End Handlers.

(* ================================================================= *)
(** ** Properties of the components                                   *)
(* ================================================================= *)



(** C3.  The calendar widget's edits are parsed with the fixed pattern
    [%Y-%m-%d] in [InputDate] and [InputDateRange], whatever [date_format]
    is, and with the caller's [date_format] in [DatePicker] and
    [DateRangePicker]; the shown string is rendered with [date_format] in
    all four.  The last part shows on the model of [datetime] that the two
    conventions do differ. *)
Theorem wire_and_display_patterns :
  (forall H : datetime_lib,
      (forall (p : InputDate.props) st s,
          dp_on_v_model (picker (InputDate.render p st)) s st
          = match strptime s "%Y-%m-%d" with
            | inl e => (inl e, st)
            | inr d =>
                (inr tt,
                 InputDate.mkstore (Some d)
                   (Some (strftime d (InputDate.date_format p)))
                   (InputDate.datepicker_is_open st))
            end)
      /\ (forall (p : InputDateRange.props) st values,
          dp_on_v_model (picker (InputDateRange.render p st)) values st
          = match comprehension (fun item => strptime item "%Y-%m-%d")
                    values with
            | inl e => (inl e, st)
            | inr ds =>
                (inr tt,
                 InputDateRange.mkstore ds
                   (InputDateRange.datepicker_is_open st))
            end)
      /\ (forall (p : DatePicker.props) st s,
          dp_on_v_model (picker (DatePicker.render p st)) s st
          = match strptime s (DatePicker.date_format p) with
            | inl e => (inl e, st)
            | inr d =>
                (inr tt,
                 DatePicker.mkstore (Some d) (DatePicker.datepicker_is_open st))
            end)
      /\ (forall (p : DateRangePicker.props) st values,
          dp_on_v_model (picker (DateRangePicker.render p st)) values st
          = match comprehension
                    (fun v => strptime v (DateRangePicker.date_format p))
                    values with
            | inl e => (inl e, st)
            | inr ds =>
                (inr tt,
                 DateRangePicker.mkstore ds
                   (DateRangePicker.datepicker_is_open st))
            end)
      /\ (forall (p : DatePicker.props) st,
          DatePicker.shown p st
          = option_map (fun d => strftime d (DatePicker.date_format p))
              (DatePicker.date st))
      /\ (forall (p : DateRangePicker.props) st,
          DateRangePicker.shown p st
          = Some (join " - "
                    (map (fun d => strftime d (DateRangePicker.date_format p))
                       (DateRangePicker.dates st))))
      /\ (forall (p : InputDateRange.props) st,
          InputDateRange.shown p st
          = Some (join " - "
                    (map (fun d => strftime d (InputDateRange.date_format p))
                       (InputDateRange.value st))))
      /\ (forall (p : InputDate.props) v,
          InputDate.shown p (InputDate.mount p v)
          = option_map (fun d => strftime d (InputDate.date_format p)) v)
      /\ (forall (p : InputDate.props) st s,
          InputDate.shown p
            (snd (dp_on_v_model (picker (InputDate.render p st)) s st))
          = match strptime s "%Y-%m-%d" with
            | inl _ => InputDate.shown p st
            | inr d => Some (strftime d (InputDate.date_format p))
            end))
  /\ (let p := DatePicker.mkprops [] false "%d/%m/%Y" in
      let h := dp_on_v_model
                 (picker (DatePicker.render (H := python_datetime) p
                            picker_store)) in
      fst (h "15/01/2024" picker_store) = inr tt
      /\ fst (h "2024-01-15" picker_store) = inl dt.ValueError)
  /\ (let p := InputDate.mkprops "Pick a date" [] false "%d/%m/%Y" 1 "" in
      let h := dp_on_v_model
                 (picker (InputDate.render (H := python_datetime) p
                            input_store)) in
      fst (h "15/01/2024" input_store) = inl dt.ValueError
      /\ fst (h "2024-01-15" input_store) = inr tt).
Proof.
  split; [|split; split; vm_compute; reflexivity].
  intros H. repeat apply conj.
  - intros p st s. apply InputDate_run.
  - intros p st values. apply InputDateRange_run.
  - intros p st s. apply DatePicker_run.
  - intros p st values. apply DateRangePicker_run.
  - intros p [[d|] o]; reflexivity.
  - intros p st. reflexivity.
  - intros p st. reflexivity.
  - intros p [d|]; reflexivity.
  - intros p st s. cbn [InputDate.render InputDate.InputDate snd picker
                       dp_on_v_model].
    rewrite InputDate_run. now destruct (strptime s "%Y-%m-%d").
Qed.

(** C6.  In each component the handler of the calendar widget leaves the
    open flag as it is, whether it returns or raises, and the overlay has
    [close_on_content_click] off; what is rendered under the calendar is
    either the caller's children or the "close" button, whose click sets
    the flag to false. *)
Theorem widget_edit_keeps_overlay_open `{datetime_lib} :
  (forall (p : DatePicker.props) st s,
      let v := DatePicker.render p st in
      DatePicker.datepicker_is_open (snd (dp_on_v_model (picker v) s st))
      = DatePicker.datepicker_is_open st
      /\ menu_close_on_content_click (menu v) = false
      /\ menu_open (menu v) = DatePicker.datepicker_is_open st
      /\ match footer v with
         | Children els => els = DatePicker.children p /\ els <> []
         | CloseRow _ _ _ _ on_click =>
             DatePicker.datepicker_is_open (snd (on_click st)) = false
         end)
  /\ (forall (p : DateRangePicker.props) st values,
      let v := DateRangePicker.render p st in
      DateRangePicker.datepicker_is_open
        (snd (dp_on_v_model (picker v) values st))
      = DateRangePicker.datepicker_is_open st
      /\ menu_close_on_content_click (menu v) = false
      /\ menu_open (menu v) = DateRangePicker.datepicker_is_open st
      /\ match footer v with
         | Children els => els = DateRangePicker.children p /\ els <> []
         | CloseRow _ _ _ _ on_click =>
             DateRangePicker.datepicker_is_open (snd (on_click st)) = false
         end)
  /\ (forall (p : InputDate.props) st s,
      let v := InputDate.render p st in
      InputDate.datepicker_is_open (snd (dp_on_v_model (picker v) s st))
      = InputDate.datepicker_is_open st
      /\ menu_close_on_content_click (menu v) = false
      /\ menu_open (menu v) = InputDate.datepicker_is_open st
      /\ match footer v with
         | Children els => els = InputDate.children p /\ els <> []
         | CloseRow _ _ _ _ on_click =>
             InputDate.datepicker_is_open (snd (on_click st)) = false
         end)
  /\ (forall (p : InputDateRange.props) st values,
      let v := InputDateRange.render p st in
      InputDateRange.datepicker_is_open
        (snd (dp_on_v_model (picker v) values st))
      = InputDateRange.datepicker_is_open st
      /\ menu_close_on_content_click (menu v) = false
      /\ menu_open (menu v) = InputDateRange.datepicker_is_open st
      /\ match footer v with
         | Children els => els = InputDateRange.children p /\ els <> []
         | CloseRow _ _ _ _ on_click =>
             InputDateRange.datepicker_is_open (snd (on_click st)) = false
         end).
Proof.
  repeat apply conj.
  - intros p st s. cbv zeta. repeat apply conj; try reflexivity.
    + simpl. rewrite DatePicker_run. now destruct (strptime s _).
    + simpl. destruct (DatePicker.children p); simpl; [reflexivity|].
      split; [reflexivity|discriminate].
  - intros p st values. cbv zeta. repeat apply conj; try reflexivity.
    + simpl. rewrite DateRangePicker_run.
      now destruct (comprehension _ values).
    + simpl. destruct (DateRangePicker.children p); simpl; [reflexivity|].
      split; [reflexivity|discriminate].
  - intros p st s. cbv zeta. repeat apply conj; try reflexivity.
    + simpl. rewrite InputDate_run. now destruct (strptime s _).
    + simpl. destruct (InputDate.children p); simpl; [reflexivity|].
      split; [reflexivity|discriminate].
  - intros p st values. cbv zeta. repeat apply conj; try reflexivity.
    + simpl. rewrite InputDateRange_run.
      now destruct (comprehension _ values).
    + simpl. destruct (InputDateRange.children p); simpl; [reflexivity|].
      split; [reflexivity|discriminate].
Qed.

(** C9, as the code has it.  The text field is read-only in
    [DatePicker], [DateRangePicker] and [InputDateRange]; only [InputDate]
    leaves it editable. *)
Theorem text_field_readonly `{datetime_lib} :
  (forall (p : DatePicker.props) st,
      tf_readonly (input (DatePicker.render p st)) = true)
  /\ (forall (p : DateRangePicker.props) st,
      tf_readonly (input (DateRangePicker.render p st)) = true)
  /\ (forall (p : InputDateRange.props) st,
      tf_readonly (input (InputDateRange.render p st)) = true)
  /\ (forall (p : InputDate.props) st,
      tf_readonly (input (InputDate.render p st)) = false).
Proof. repeat apply conj; intros p st; reflexivity. Qed.

(** C9 as stated fails: [DatePicker] selects a single date and its text
    field is read-only. *)
Lemma DatePicker_text_field_is_readonly :
  tf_readonly
    (input (DatePicker.render (H := python_datetime)
              DatePicker.default_props picker_store)) = true
  /\ tf_readonly
       (input (DatePicker.render (H := python_datetime)
                 DatePicker.default_props picker_store)) <> false.
Proof. split; [reflexivity|discriminate]. Qed.



Section RangeEdits.
Context `{datetime_lib}.

Lemma comprehension_all_parse {A B : Type} (f : A -> dt.result B) xs :
  (forall x, In x xs -> exists y, f x = inr y) ->
  exists ys, comprehension f xs = inr ys /\ length ys = length xs.
Proof.
  intros Hall. destruct (comprehension f xs) as [e|ys] eqn:E.
  - destruct (comprehension_inl _ _ _ E) as (x & Hin & Hx).
    destruct (Hall x Hin) as (y & Hy). congruence.
  - exists ys. split; [reflexivity|].
    apply comprehension_Forall2 in E. symmetry.
    now apply Forall2_length in E.
Qed.

End RangeEdits.

(** C8, as the code has it.  The range handlers check no arity: the only
    exception they raise is the parse exception of an item, and a sequence
    of any length whose items all parse is written, with as many dates as
    items.  There is no [RangeArityError]. *)
Theorem range_edit_has_no_arity_check `{datetime_lib} :
  (forall (p : DateRangePicker.props) st values,
      (forall e,
          fst (DateRangePicker.set_dates_cast p values st) = inl e ->
          exists item,
            In item values
            /\ strptime item (DateRangePicker.date_format p) = inl e)
      /\ ((forall item, In item values ->
             exists d, strptime item (DateRangePicker.date_format p) = inr d) ->
          exists ds,
            DateRangePicker.set_dates_cast p values st
            = (inr tt, DateRangePicker.mkstore ds
                         (DateRangePicker.datepicker_is_open st))
            /\ length ds = length values))
  /\ (forall (p : InputDateRange.props) st values,
      (forall e,
          fst (InputDateRange.set_dates_cast p values st) = inl e ->
          exists item, In item values /\ strptime item "%Y-%m-%d" = inl e)
      /\ ((forall item, In item values ->
             exists d, strptime item "%Y-%m-%d" = inr d) ->
          exists ds,
            InputDateRange.set_dates_cast p values st
            = (inr tt, InputDateRange.mkstore ds
                         (InputDateRange.datepicker_is_open st))
            /\ length ds = length values)).
Proof.
  split; intros p st values; split.
  - intros e. rewrite DateRangePicker_run.
    destruct (comprehension _ values) as [e'|ds] eqn:E; simpl;
      [|discriminate].
    intros [= <-]. now apply comprehension_inl in E.
  - intros Hall. rewrite DateRangePicker_run.
    destruct (comprehension_all_parse
                (fun v => strptime v (DateRangePicker.date_format p))
                values Hall) as (ds & -> & Hlen).
    exists ds. auto.
  - intros e. rewrite InputDateRange_run.
    destruct (comprehension _ values) as [e'|ds] eqn:E; simpl;
      [|discriminate].
    intros [= <-]. now apply comprehension_inl in E.
  - intros Hall. rewrite InputDateRange_run.
    destruct (comprehension_all_parse
                (fun v => strptime v "%Y-%m-%d") values Hall)
      as (ds & -> & Hlen).
    exists ds. auto.
Qed.

Lemma range_edit_has_no_arity_check_witness :
  (exists ds,
      DateRangePicker.set_dates_cast (H := python_datetime)
        DateRangePicker.default_props
        ["2024-03-01"; "2024-03-10"; "2024-03-05"] range_store
      = (inr tt, DateRangePicker.mkstore ds true)
      /\ length ds = 3)
  /\ (exists ds,
      InputDateRange.set_dates_cast (H := python_datetime)
        InputDateRange.default_props
        ["2024-03-01"; "2024-03-10"; "2024-03-05"] input_range_store
      = (inr tt, InputDateRange.mkstore ds true)
      /\ length ds = 3).
Proof.
  destruct (@range_edit_has_no_arity_check python_datetime) as (H1 & H2).
  split.
  - apply (H1 DateRangePicker.default_props range_store
              ["2024-03-01"; "2024-03-10"; "2024-03-05"]).
    intros item [<-|[<-|[<-|[]]]]; eexists; vm_compute; reflexivity.
  - apply (H2 InputDateRange.default_props input_range_store
              ["2024-03-01"; "2024-03-10"; "2024-03-05"]).
    intros item [<-|[<-|[<-|[]]]]; eexists; vm_compute; reflexivity.
Defined.

(** C8 as stated fails: a sequence of three dates raises nothing and is
    written as it is. *)
Lemma three_dates_are_written :
  DateRangePicker.set_dates_cast (H := python_datetime)
    DateRangePicker.default_props
    ["2024-03-01"; "2024-03-10"; "2024-03-05"] range_store
  = (inr tt,
     DateRangePicker.mkstore [mar01; mar10; dt.mkdate 2024 3 5] true)
  /\ InputDateRange.set_dates_cast (H := python_datetime)
       InputDateRange.default_props
       ["2024-03-01"; "2024-03-10"; "2024-03-05"] input_range_store
     = (inr tt,
        InputDateRange.mkstore [mar01; mar10; dt.mkdate 2024 3 5] true).
Proof. split; vm_compute; reflexivity. Qed.






(** [strptime] returns dates that pass the checks of the constructor. *)
Lemma strptime_valid s fmt d :
  dt.strptime s fmt = inr d -> dt.valid_date d = true.
Proof.
  unfold dt.strptime. destruct (dt.compile fmt) as [e|ts]; [discriminate|].
  destruct (dt.rematch ts s dt.no_groups) as [[g rest]|]; [|discriminate].
  destruct rest; [|discriminate]. unfold dt.build.
  match goal with |- context [dt.valid_date ?x] =>
    destruct (dt.valid_date x) eqn:E end; [|discriminate].
  now intros [= <-].
Qed.







(* ================================================================= *)
(** ** Further properties of the handlers and of what is rendered     *)
(* ================================================================= *)

(** X1.  An edit that succeeds replaces the value wholesale: after any
    earlier edit, accepted or refused, the store it leaves is the one it
    leaves when it is the only edit.  All four components. *)
Theorem last_edit_wins `{datetime_lib} :
  (forall (p : DatePicker.props) st s1 s2,
      fst (DatePicker.set_date_cast p s2 st) = inr tt ->
      DatePicker.set_date_cast p s2 (snd (DatePicker.set_date_cast p s1 st))
      = DatePicker.set_date_cast p s2 st)
  /\ (forall (p : InputDate.props) st s1 s2,
      fst (InputDate.set_date_cast p s2 st) = inr tt ->
      InputDate.set_date_cast p s2 (snd (InputDate.set_date_cast p s1 st))
      = InputDate.set_date_cast p s2 st)
  /\ (forall (p : DateRangePicker.props) st v1 v2,
      fst (DateRangePicker.set_dates_cast p v2 st) = inr tt ->
      DateRangePicker.set_dates_cast p v2
        (snd (DateRangePicker.set_dates_cast p v1 st))
      = DateRangePicker.set_dates_cast p v2 st)
  /\ (forall (p : InputDateRange.props) st v1 v2,
      fst (InputDateRange.set_dates_cast p v2 st) = inr tt ->
      InputDateRange.set_dates_cast p v2
        (snd (InputDateRange.set_dates_cast p v1 st))
      = InputDateRange.set_dates_cast p v2 st).
Proof.
  repeat apply conj.
  - intros p st s1 s2. rewrite !DatePicker_run.
    destruct (strptime s2 _); simpl; [discriminate|]. intros _.
    now destruct (strptime s1 _).
  - intros p st s1 s2. rewrite !InputDate_run.
    destruct (strptime s2 _); simpl; [discriminate|]. intros _.
    now destruct (strptime s1 _).
  - intros p st v1 v2. rewrite !DateRangePicker_run.
    destruct (comprehension _ v2); simpl; [discriminate|]. intros _.
    now destruct (comprehension _ v1).
  - intros p st v1 v2. rewrite !InputDateRange_run.
    destruct (comprehension _ v2); simpl; [discriminate|]. intros _.
    now destruct (comprehension _ v1).
Qed.

Lemma last_edit_wins_witness :
  DatePicker.set_date_cast (H := python_datetime) DatePicker.default_props
    "2024-02-20"
    (snd (DatePicker.set_date_cast DatePicker.default_props "2024-03-01"
            picker_store))
  = DatePicker.set_date_cast DatePicker.default_props "2024-02-20"
      picker_store
  /\ InputDate.set_date_cast (H := python_datetime) InputDate.default_props
       "2024-02-20"
       (snd (InputDate.set_date_cast InputDate.default_props "no date"
               input_store))
     = InputDate.set_date_cast InputDate.default_props "2024-02-20"
         input_store
  /\ DateRangePicker.set_dates_cast (H := python_datetime)
       DateRangePicker.default_props ["2024-02-20"]
       (snd (DateRangePicker.set_dates_cast DateRangePicker.default_props
               ["2024-03-01"; "2024-03-10"] range_store))
     = DateRangePicker.set_dates_cast DateRangePicker.default_props
         ["2024-02-20"] range_store
  /\ InputDateRange.set_dates_cast (H := python_datetime)
       InputDateRange.default_props []
       (snd (InputDateRange.set_dates_cast InputDateRange.default_props
               ["2024-03-01"] input_range_store))
     = InputDateRange.set_dates_cast InputDateRange.default_props []
         input_range_store.
Proof.
  destruct (@last_edit_wins python_datetime) as (H1 & H2 & H3 & H4).
  repeat apply conj.
  - apply H1. vm_compute. reflexivity.
  - apply H2. vm_compute. reflexivity.
  - apply H3. vm_compute. reflexivity.
  - apply H4. vm_compute. reflexivity.
Defined.

(** X2.  Closing and editing do not interfere, in all four components: the
    "close" button leaves the value (and the string cell of [InputDate])
    as it is, so nothing written is rolled back; an edit has the same
    outcome before and after closing; and the two orders give the same
    store. *)
Theorem close_commutes_with_edit `{datetime_lib} :
  (forall (p : DatePicker.props) st s,
      DatePicker.date (snd (DatePicker.close st)) = DatePicker.date st
      /\ fst (DatePicker.set_date_cast p s (snd (DatePicker.close st)))
         = fst (DatePicker.set_date_cast p s st)
      /\ snd (DatePicker.close (snd (DatePicker.set_date_cast p s st)))
         = snd (DatePicker.set_date_cast p s (snd (DatePicker.close st))))
  /\ (forall (p : InputDate.props) st s,
      InputDate.value (snd (InputDate.close st)) = InputDate.value st
      /\ InputDate.date_str (snd (InputDate.close st)) = InputDate.date_str st
      /\ fst (InputDate.set_date_cast p s (snd (InputDate.close st)))
         = fst (InputDate.set_date_cast p s st)
      /\ snd (InputDate.close (snd (InputDate.set_date_cast p s st)))
         = snd (InputDate.set_date_cast p s (snd (InputDate.close st))))
  /\ (forall (p : DateRangePicker.props) st values,
      DateRangePicker.dates (snd (DateRangePicker.close st))
      = DateRangePicker.dates st
      /\ fst (DateRangePicker.set_dates_cast p values
                (snd (DateRangePicker.close st)))
         = fst (DateRangePicker.set_dates_cast p values st)
      /\ snd (DateRangePicker.close
                (snd (DateRangePicker.set_dates_cast p values st)))
         = snd (DateRangePicker.set_dates_cast p values
                  (snd (DateRangePicker.close st))))
  /\ (forall (p : InputDateRange.props) st values,
      InputDateRange.value (snd (InputDateRange.close st))
      = InputDateRange.value st
      /\ fst (InputDateRange.set_dates_cast p values
                (snd (InputDateRange.close st)))
         = fst (InputDateRange.set_dates_cast p values st)
      /\ snd (InputDateRange.close
                (snd (InputDateRange.set_dates_cast p values st)))
         = snd (InputDateRange.set_dates_cast p values
                  (snd (InputDateRange.close st)))).
Proof.
  repeat apply conj; intros p st x; repeat apply conj; try reflexivity.
  - rewrite !DatePicker_run. now destruct (strptime x _).
  - rewrite !DatePicker_run. now destruct (strptime x _).
  - rewrite !InputDate_run. now destruct (strptime x _).
  - rewrite !InputDate_run. now destruct (strptime x _).
  - rewrite !DateRangePicker_run. now destruct (comprehension _ x).
  - rewrite !DateRangePicker_run. now destruct (comprehension _ x).
  - rewrite !InputDateRange_run. now destruct (comprehension _ x).
  - rewrite !InputDateRange_run. now destruct (comprehension _ x).
Qed.

Section FirstFailure.
Context `{datetime_lib}.

Lemma comprehension_first_failure {A B : Type} (f : A -> dt.result B)
  pre x post e :
  Forall (fun v => exists y, f v = inr y) pre ->
  f x = inl e ->
  comprehension f (pre ++ x :: post) = inl e.
Proof.
  induction 1 as [|v pre [y Hy] _ IH]; intros Hx; simpl.
  - now rewrite Hx.
  - now rewrite Hy, (IH Hx).
Qed.

End FirstFailure.

(** X3.  In the range handlers the items are parsed from the left and the
    first one that fails decides: when every item before it parses, the
    handler raises that item's exception, whatever comes after it, and
    writes nothing. *)
Theorem first_failing_item_decides `{datetime_lib} :
  (forall (p : DateRangePicker.props) st pre item post e,
      Forall (fun v =>
                exists d, strptime v (DateRangePicker.date_format p) = inr d)
        pre ->
      strptime item (DateRangePicker.date_format p) = inl e ->
      DateRangePicker.set_dates_cast p (pre ++ item :: post) st = (inl e, st))
  /\ (forall (p : InputDateRange.props) st pre item post e,
      Forall (fun v => exists d, strptime v "%Y-%m-%d" = inr d) pre ->
      strptime item "%Y-%m-%d" = inl e ->
      InputDateRange.set_dates_cast p (pre ++ item :: post) st = (inl e, st)).
Proof.
  split; intros p st pre item post e Hpre Hitem.
  - rewrite DateRangePicker_run.
    now rewrite (comprehension_first_failure
                   (fun v => strptime v (DateRangePicker.date_format p))
                   pre item post e Hpre Hitem).
  - rewrite InputDateRange_run.
    now rewrite (comprehension_first_failure
                   (fun v => strptime v "%Y-%m-%d")
                   pre item post e Hpre Hitem).
Qed.

Lemma first_failing_item_decides_witness :
  DateRangePicker.set_dates_cast (H := python_datetime)
    (DateRangePicker.mkprops [] false "%d.%m.%Y")
    (["01.03.2024"] ++ "2024-03-10" :: ["10.03.2024"]) range_store
  = (inl dt.ValueError, range_store)
  /\ InputDateRange.set_dates_cast (H := python_datetime)
       InputDateRange.default_props
       (["2024-03-01"] ++ "2024-02-30" :: ["later"]) input_range_store
     = (inl dt.ValueError, input_range_store).
Proof.
  destruct (@first_failing_item_decides python_datetime) as (H1 & H2).
  split.
  - apply H1; [|vm_compute; reflexivity].
    repeat constructor. eexists. vm_compute. reflexivity.
  - apply H2; [|vm_compute; reflexivity].
    repeat constructor. eexists. vm_compute. reflexivity.
Defined.

(** X4.  On the model of [datetime], the handlers keep the caller's cell
    within the dates the [date] constructor admits (year 1 to 9999, month
    1 to 12, day within the month): if the value is valid before an edit,
    it is valid after it, whether the edit is accepted or refused. *)
Theorem edits_keep_dates_valid :
  (forall (p : DatePicker.props) st s,
      (forall d, DatePicker.date st = Some d -> dt.valid_date d = true) ->
      forall d,
        DatePicker.date
          (snd (DatePicker.set_date_cast (H := python_datetime) p s st))
        = Some d ->
        dt.valid_date d = true)
  /\ (forall (p : InputDate.props) st s,
      (forall d, InputDate.value st = Some d -> dt.valid_date d = true) ->
      forall d,
        InputDate.value
          (snd (InputDate.set_date_cast (H := python_datetime) p s st))
        = Some d ->
        dt.valid_date d = true)
  /\ (forall (p : DateRangePicker.props) st values,
      Forall (fun d => dt.valid_date d = true) (DateRangePicker.dates st) ->
      Forall (fun d => dt.valid_date d = true)
        (DateRangePicker.dates
           (snd (DateRangePicker.set_dates_cast (H := python_datetime)
                   p values st))))
  /\ (forall (p : InputDateRange.props) st values,
      Forall (fun d => dt.valid_date d = true) (InputDateRange.value st) ->
      Forall (fun d => dt.valid_date d = true)
        (InputDateRange.value
           (snd (InputDateRange.set_dates_cast (H := python_datetime)
                   p values st)))).
Proof.
  assert (parsed_all : forall fmt values ds,
             comprehension (fun v => dt.strptime v fmt) values = inr ds ->
             Forall (fun d => dt.valid_date d = true) ds).
  { intros fmt values ds E.
    apply (comprehension_Forall2 (fun v => dt.strptime v fmt)) in E.
    induction E as [|v d vs ds Hv _ IH]; constructor; auto.
    now apply strptime_valid in Hv. }
  repeat apply conj.
  - intros p st s Hst d. rewrite DatePicker_run.
    destruct (strptime s _) as [e|d'] eqn:E; simpl; [apply Hst|].
    intros [= <-]. now apply strptime_valid in E.
  - intros p st s Hst d. rewrite InputDate_run.
    destruct (strptime s _) as [e|d'] eqn:E; simpl; [apply Hst|].
    intros [= <-]. now apply strptime_valid in E.
  - intros p st values Hst. rewrite DateRangePicker_run.
    destruct (comprehension _ values) as [e|ds] eqn:E; simpl; [exact Hst|].
    now apply parsed_all in E.
  - intros p st values Hst. rewrite InputDateRange_run.
    destruct (comprehension _ values) as [e|ds] eqn:E; simpl; [exact Hst|].
    now apply parsed_all in E.
Qed.

Lemma edits_keep_dates_valid_witness :
  dt.valid_date feb20 = true
  /\ dt.valid_date jan15 = true
  /\ Forall (fun d => dt.valid_date d = true)
       (DateRangePicker.dates
          (snd (DateRangePicker.set_dates_cast (H := python_datetime)
                  DateRangePicker.default_props
                  ["2024-02-20"; "2024-02-29"] range_store)))
  /\ Forall (fun d => dt.valid_date d = true)
       (InputDateRange.value
          (snd (InputDateRange.set_dates_cast (H := python_datetime)
                  InputDateRange.default_props
                  ["2024-02-20"; "2024-02-30"] input_range_store))).
Proof.
  destruct edits_keep_dates_valid as (H1 & H2 & H3 & H4).
  repeat apply conj.
  - apply (H1 DatePicker.default_props picker_store "2024-02-20");
      [|reflexivity].
    intros d [= <-]. reflexivity.
  - apply (H2 InputDate.default_props input_store "2024-02-30");
      [|reflexivity].
    intros d [= <-]. reflexivity.
  - apply H3. repeat constructor.
  - apply H4. repeat constructor.
Defined.

Lemma iso_is_full_date_format : full_date_format "%Y-%m-%d" = true.
Proof. reflexivity. Qed.

Lemma comprehension_map {A B C : Type} (f : B -> dt.result C) (g : A -> B)
  (P : A -> Prop) (h : A -> C) xs :
  (forall x, P x -> f (g x) = inr (h x)) ->
  Forall P xs ->
  comprehension f (map g xs) = inr (map h xs).
Proof.
  intros Hf. induction 1 as [|x xs Hx _ IH]; simpl; [reflexivity|].
  now rewrite (Hf x Hx), IH.
Qed.

(** X5.  [InputDate] and [InputDateRange] accept what the calendar widget
    reports: for every date of a four-digit year, its [YYYY-MM-DD] form is
    parsed to that date, which is written; [InputDate] then shows it
    formatted with [date_format]; a sequence of such forms, of any length,
    is written as the sequence of the dates. *)
Theorem iso_edits_are_written :
  (forall (p : InputDate.props) st d,
      dt.valid_date d = true -> 1000 <= dt.year d ->
      InputDate.set_date_cast (H := python_datetime) p
        (dt.strftime d "%Y-%m-%d") st
      = (inr tt,
         InputDate.mkstore (Some d)
           (Some (dt.strftime d (InputDate.date_format p)))
           (InputDate.datepicker_is_open st)))
  /\ (forall (p : InputDateRange.props) st ds,
      Forall (fun d => dt.valid_date d = true /\ 1000 <= dt.year d) ds ->
      InputDateRange.set_dates_cast (H := python_datetime) p
        (map (fun d => dt.strftime d "%Y-%m-%d") ds) st
      = (inr tt,
         InputDateRange.mkstore ds (InputDateRange.datepicker_is_open st))).
Proof.
  split.
  - intros p st d Hv Hy. rewrite InputDate_run.
    change (strptime (dt.strftime d "%Y-%m-%d") "%Y-%m-%d")
      with (dt.strptime (dt.strftime d "%Y-%m-%d") "%Y-%m-%d").
    now rewrite (strptime_strftime d _ Hv Hy iso_is_full_date_format).
  - intros p st ds Hds. rewrite InputDateRange_run.
    rewrite (comprehension_map (fun item => strptime item "%Y-%m-%d")
               (fun d => dt.strftime d "%Y-%m-%d")
               (fun d => dt.valid_date d = true /\ 1000 <= dt.year d)
               (fun d => d) ds).
    + now rewrite map_id.
    + intros d [Hv Hy].
      exact (strptime_strftime d _ Hv Hy iso_is_full_date_format).
    + exact Hds.
Qed.

Lemma iso_edits_are_written_witness :
  InputDate.set_date_cast (H := python_datetime) InputDate.default_props
    (dt.strftime feb20 "%Y-%m-%d") input_store
  = (inr tt, InputDate.mkstore (Some feb20) (Some "2024/02/20") true)
  /\ InputDateRange.set_dates_cast (H := python_datetime)
       InputDateRange.default_props
       (map (fun d => dt.strftime d "%Y-%m-%d") [mar10; jan15; feb20])
       input_range_store
     = (inr tt, InputDateRange.mkstore [mar10; jan15; feb20] true).
Proof.
  destruct iso_edits_are_written as (H1 & H2).
  split.
  - apply (H1 InputDate.default_props input_store feb20);
      [reflexivity | apply Nat.leb_le; vm_compute; reflexivity].
  - apply (H2 InputDateRange.default_props input_range_store
              [mar10; jan15; feb20]).
    repeat constructor; apply Nat.leb_le; vm_compute; reflexivity.
Defined.



(** A date printed with [%Y/%m/%d] does not parse with [%Y-%m-%d]: after
    the year the expression wants a hyphen. *)
Lemma slash_date_is_not_iso d :
  dt.valid_date d = true -> 1000 <= dt.year d ->
  dt.strptime (dt.strftime d "%Y/%m/%d") "%Y-%m-%d" = inl dt.ValueError.
Proof.
  intros Hv Hy.
  destruct (decimal_year_digits d Hv Hy) as (a & b & c & e & E & Ha & Hb & Hc & He).
  unfold dt.strftime.
  change (dt.lex "%Y/%m/%d")
    with [dt.Dir "Y"; dt.Lit "/"; dt.Dir "m"; dt.Lit "/"; dt.Dir "d"].
  cbn [dt.render_all dt.render]. eval_chars. cbv iota. rewrite E.
  cbn [append]. unfold dt.strptime.
  change (dt.compile "%Y-%m-%d")
    with (@inr dt.exn _ [dt.TGroup dt.DirY; dt.TChar "-"; dt.TGroup dt.Dirm;
                         dt.TChar "-"; dt.TGroup dt.Dird]).
  cbn [dt.rematch dt.candidates dt.group_regex dt.match_alts flat_map
         dt.match_seq].
  rewrite Ha, Hb, Hc, He.
  cbn [app map dt.first_match fst snd dt.rematch dt.candidates].
  change (dt.eqb_nocase "-" "/") with false.
  reflexivity.
Qed.

(** X7.  With [date_format] at its default [%Y/%m/%d], [InputDate] refuses
    the very form it shows: its editable text field shows the date with
    slashes, and the handler of that field, which parses with [%Y-%m-%d],
    raises [ValueError] on every date written with slashes and changes
    nothing. *)
Theorem default_text_form_is_refused :
  forall (p : InputDate.props) d,
    InputDate.date_format p = "%Y/%m/%d" ->
    dt.valid_date d = true -> 1000 <= dt.year d ->
    InputDate.shown (H := python_datetime) p (InputDate.mount p (Some d))
    = Some (dt.strftime d "%Y/%m/%d")
    /\ tf_readonly (input (InputDate.render (H := python_datetime) p
                             (InputDate.mount p (Some d)))) = false
    /\ forall st,
        tf_on_v_model (input (InputDate.render (H := python_datetime) p st))
          (dt.strftime d "%Y/%m/%d") st
        = (inl dt.ValueError, st).
Proof.
  intros p d Hp Hv Hy. repeat apply conj.
  - unfold InputDate.shown. simpl. now rewrite Hp.
  - reflexivity.
  - intros st. simpl. rewrite InputDate_run.
    change (strptime (dt.strftime d "%Y/%m/%d") "%Y-%m-%d")
      with (dt.strptime (dt.strftime d "%Y/%m/%d") "%Y-%m-%d").
    now rewrite (slash_date_is_not_iso d Hv Hy).
Qed.

Lemma default_text_form_is_refused_witness :
  InputDate.shown (H := python_datetime) InputDate.default_props
    (InputDate.mount InputDate.default_props (Some jan15))
  = Some (dt.strftime jan15 "%Y/%m/%d")
  /\ tf_readonly (input (InputDate.render (H := python_datetime)
                           InputDate.default_props
                           (InputDate.mount InputDate.default_props
                              (Some jan15)))) = false
  /\ forall st,
      tf_on_v_model (input (InputDate.render (H := python_datetime)
                              InputDate.default_props st))
        (dt.strftime jan15 "%Y/%m/%d") st
      = (inl dt.ValueError, st).
Proof.
  apply (default_text_form_is_refused InputDate.default_props jan15);
    [reflexivity | reflexivity | apply Nat.leb_le; vm_compute; reflexivity].
Defined.

(** A string of one character is no [%Y-%m-%d] date. *)
Lemma one_char_is_not_iso c :
  dt.strptime (String c "") "%Y-%m-%d" = inl dt.ValueError.
Proof.
  unfold dt.strptime.
  change (dt.compile "%Y-%m-%d")
    with (@inr dt.exn _ [dt.TGroup dt.DirY; dt.TChar "-"; dt.TGroup dt.Dirm;
                         dt.TChar "-"; dt.TGroup dt.Dird]).
  cbn [dt.rematch dt.candidates dt.group_regex dt.match_alts flat_map
         dt.match_seq].
  destruct (dt.is_digit c); reflexivity.
Qed.

(** X8.  The text field of [InputDateRange] is wired to [set_dates_cast],
    which iterates over what it is given: a string is taken character by
    character.  So on every string that is not empty the handler raises
    [ValueError] and writes nothing, and on the empty string it writes the
    empty range. *)
Theorem range_text_edit_never_parses :
  forall (p : InputDateRange.props) st s,
    let h := tf_on_v_model
               (input (InputDateRange.render (H := python_datetime) p st)) in
    (s <> "" -> h s st = (inl dt.ValueError, st))
    /\ h "" st
       = (inr tt,
          InputDateRange.mkstore [] (InputDateRange.datepicker_is_open st)).
Proof.
  intros p st s. cbv zeta. split; [|reflexivity].
  intros Hs. destruct s as [|c r]; [congruence|].
  simpl. rewrite InputDateRange_run. cbn [iter_str comprehension].
  change (strptime (String c "") "%Y-%m-%d")
    with (dt.strptime (String c "") "%Y-%m-%d").
  now rewrite one_char_is_not_iso.
Qed.

Lemma range_text_edit_never_parses_witness :
  tf_on_v_model
    (input (InputDateRange.render (H := python_datetime)
              InputDateRange.default_props input_range_store))
    "2024-03-01 - 2024-03-10" input_range_store
  = (inl dt.ValueError, input_range_store).
Proof.
  apply (range_text_edit_never_parses InputDateRange.default_props
           input_range_store "2024-03-01 - 2024-03-10").
  discriminate.
Defined.



Lemma join_cons sep x l :
  l <> [] -> join sep (x :: l) = (x ++ sep ++ join sep l)%string.
Proof. destruct l; [congruence|reflexivity]. Qed.

Lemma join_app sep l1 l2 :
  l1 <> [] -> l2 <> [] ->
  join sep (l1 ++ l2) = (join sep l1 ++ sep ++ join sep l2)%string.
Proof.
  intros H1 H2. induction l1 as [|x l1 IH]; [congruence|].
  destruct l1 as [|y l1].
  - simpl app. now rewrite join_cons.
  - change ((x :: y :: l1) ++ l2) with (x :: ((y :: l1) ++ l2)).
    rewrite join_cons by discriminate.
    rewrite IH by discriminate.
    rewrite (join_cons sep x (y :: l1)) by discriminate.
    now rewrite !append_assoc.
Qed.

(** X10.  The shown string of a range of any length is built piecewise: for
    two stretches of dates that are not empty, the string of the whole is
    the string of the first stretch, [" - "], and the string of the second.
    Both range components. *)
Theorem range_text_of_concatenation `{datetime_lib} :
  (forall (p : DateRangePicker.props) o l1 l2,
      l1 <> [] -> l2 <> [] ->
      exists s1 s2,
        DateRangePicker.shown p (DateRangePicker.mkstore l1 o) = Some s1
        /\ DateRangePicker.shown p (DateRangePicker.mkstore l2 o) = Some s2
        /\ DateRangePicker.shown p (DateRangePicker.mkstore (l1 ++ l2) o)
           = Some (s1 ++ " - " ++ s2)%string)
  /\ (forall (p : InputDateRange.props) o l1 l2,
      l1 <> [] -> l2 <> [] ->
      exists s1 s2,
        InputDateRange.shown p (InputDateRange.mkstore l1 o) = Some s1
        /\ InputDateRange.shown p (InputDateRange.mkstore l2 o) = Some s2
        /\ InputDateRange.shown p (InputDateRange.mkstore (l1 ++ l2) o)
           = Some (s1 ++ " - " ++ s2)%string).
Proof.
  split; intros p o l1 l2 H1 H2; eexists; eexists;
    (split; [reflexivity|]); (split; [reflexivity|]);
    unfold DateRangePicker.shown, InputDateRange.shown; simpl;
    rewrite map_app; f_equal; apply join_app;
    intros E; apply map_eq_nil in E; contradiction.
Qed.

Lemma range_text_of_concatenation_witness :
  exists s1 s2,
    DateRangePicker.shown (H := python_datetime) DateRangePicker.default_props
      (DateRangePicker.mkstore [jan15] false) = Some s1
    /\ DateRangePicker.shown (H := python_datetime)
         DateRangePicker.default_props
         (DateRangePicker.mkstore [feb20; mar01] false) = Some s2
    /\ DateRangePicker.shown (H := python_datetime)
         DateRangePicker.default_props
         (DateRangePicker.mkstore ([jan15] ++ [feb20; mar01]) false)
       = Some (s1 ++ " - " ++ s2)%string.
Proof.
  destruct (@range_text_of_concatenation python_datetime) as (H1 & _).
  apply (H1 DateRangePicker.default_props false [jan15] [feb20; mar01]);
    discriminate.
Defined.

Section Suffix.

Variable d : dt.date.
Hypothesis Hvalid : dt.valid_date d = true.
Hypothesis Hyear : 1000 <= dt.year d.


End Suffix.




(** X12.  The caller's cell is shared and the last writer wins: an edit
    that is accepted after a write from elsewhere leaves exactly the store
    it leaves without that write (in [InputDate] the string cell is brought
    up to date with it), and an edit that is refused leaves the value
    written from elsewhere in place.  All four components. *)
Theorem edit_after_external_write `{datetime_lib} :
  (forall (p : DatePicker.props) st v s,
      (fst (DatePicker.set_date_cast p s st) = inr tt ->
       DatePicker.set_date_cast p s (DatePicker.external_set v st)
       = DatePicker.set_date_cast p s st)
      /\ (fst (DatePicker.set_date_cast p s st) <> inr tt ->
          DatePicker.date
            (snd (DatePicker.set_date_cast p s (DatePicker.external_set v st)))
          = v))
  /\ (forall (p : InputDate.props) st v s,
      (fst (InputDate.set_date_cast p s st) = inr tt ->
       InputDate.set_date_cast p s (InputDate.external_set v st)
       = InputDate.set_date_cast p s st)
      /\ (fst (InputDate.set_date_cast p s st) <> inr tt ->
          InputDate.value
            (snd (InputDate.set_date_cast p s (InputDate.external_set v st)))
          = v))
  /\ (forall (p : DateRangePicker.props) st v values,
      (fst (DateRangePicker.set_dates_cast p values st) = inr tt ->
       DateRangePicker.set_dates_cast p values
         (DateRangePicker.external_set v st)
       = DateRangePicker.set_dates_cast p values st)
      /\ (fst (DateRangePicker.set_dates_cast p values st) <> inr tt ->
          DateRangePicker.dates
            (snd (DateRangePicker.set_dates_cast p values
                    (DateRangePicker.external_set v st)))
          = v))
  /\ (forall (p : InputDateRange.props) st v values,
      (fst (InputDateRange.set_dates_cast p values st) = inr tt ->
       InputDateRange.set_dates_cast p values
         (InputDateRange.external_set v st)
       = InputDateRange.set_dates_cast p values st)
      /\ (fst (InputDateRange.set_dates_cast p values st) <> inr tt ->
          InputDateRange.value
            (snd (InputDateRange.set_dates_cast p values
                    (InputDateRange.external_set v st)))
          = v)).
Proof.
  repeat apply conj; intros p st v x; split.
  - rewrite !DatePicker_run.
    destruct (strptime x _); simpl; [discriminate|reflexivity].
  - rewrite !DatePicker_run.
    destruct (strptime x _); simpl; [reflexivity|]. intros E.
    contradiction E. reflexivity.
  - rewrite !InputDate_run.
    destruct (strptime x _); simpl; [discriminate|reflexivity].
  - rewrite !InputDate_run.
    destruct (strptime x _); simpl; [reflexivity|]. intros E.
    contradiction E. reflexivity.
  - rewrite !DateRangePicker_run.
    destruct (comprehension _ x); simpl; [discriminate|reflexivity].
  - rewrite !DateRangePicker_run.
    destruct (comprehension _ x); simpl; [reflexivity|]. intros E.
    contradiction E. reflexivity.
  - rewrite !InputDateRange_run.
    destruct (comprehension _ x); simpl; [discriminate|reflexivity].
  - rewrite !InputDateRange_run.
    destruct (comprehension _ x); simpl; [reflexivity|]. intros E.
    contradiction E. reflexivity.
Qed.

Lemma edit_after_external_write_witness :
  DatePicker.set_date_cast (H := python_datetime) DatePicker.default_props
    "2024-02-20" (DatePicker.external_set (Some mar01) picker_store)
  = DatePicker.set_date_cast DatePicker.default_props "2024-02-20"
      picker_store
  /\ InputDate.value
       (snd (InputDate.set_date_cast (H := python_datetime)
               InputDate.default_props "20.02.2024"
               (InputDate.external_set (Some mar01) input_store)))
     = Some mar01
  /\ DateRangePicker.set_dates_cast (H := python_datetime)
       DateRangePicker.default_props ["2024-02-20"]
       (DateRangePicker.external_set [jan15] range_store)
     = DateRangePicker.set_dates_cast DateRangePicker.default_props
         ["2024-02-20"] range_store
  /\ InputDateRange.value
       (snd (InputDateRange.set_dates_cast (H := python_datetime)
               InputDateRange.default_props ["2024/02/20"]
               (InputDateRange.external_set [] input_range_store)))
     = [].
Proof.
  destruct (@edit_after_external_write python_datetime)
    as (H1 & H2 & H3 & H4).
  repeat apply conj.
  - apply (H1 DatePicker.default_props picker_store (Some mar01)
              "2024-02-20"). vm_compute. reflexivity.
  - apply (H2 InputDate.default_props input_store (Some mar01)
              "20.02.2024"). vm_compute. discriminate.
  - apply (H3 DateRangePicker.default_props range_store [jan15]
              ["2024-02-20"]). vm_compute. reflexivity.
  - apply (H4 InputDateRange.default_props input_range_store []
              ["2024/02/20"]). vm_compute. discriminate.
Defined.
